(** * perm-backend: the paginated, filtered aggregate-read routes

    A shallow embedding of the Express route handlers of
    [src/routes/users.ts], [src/routes/departments.ts],
    [src/routes/subjects.ts] and [src/routes/classes.ts], together with
    the properties the specification states about them.

    The handlers talk to two collaborators that are not part of the
    repository: the JavaScript language (number coercion, [Math.max],
    [Map]) and a relational database reached through a query builder.
    Both are modelled here in the small: JavaScript numbers as exact
    rationals extended with [NaN] and the two infinities (binary64
    rounding and the sign of zero are not represented), tables as lists
    of rows, and each query by the usual list semantics of
    FROM / LEFT JOIN / WHERE / GROUP BY / ORDER BY / LIMIT / OFFSET. *)

From Stdlib Require Import List String Ascii ZArith QArith Qround Bool Lia.
From Stdlib Require Import Sorted Permutation.
From Stdlib Require Qcanon DecimalString DecimalNat.
Import ListNotations.

Local Open Scope string_scope.
Local Open Scope Z_scope.

(** ** JavaScript numbers *)

Module JsNum.

Inductive jsnum : Type :=
| NaN
| PInf
| NInf
| Num (q : Q).

Definition of_Z (z : Z) : jsnum := Num (inject_Z z).
Definition of_nat (n : nat) : jsnum := of_Z (Z.of_nat n).

(** [Math.max(1, x)]: [NaN] is contagious. *)
Definition max1 (x : jsnum) : jsnum :=
  match x with
  | NaN => NaN
  | PInf => PInf
  | NInf => of_Z 1
  | Num q => if Qle_bool q 1 then of_Z 1 else Num q
  end.

Definition Qsign (q : Q) : comparison := Qcompare q 0.

Definition neg (x : jsnum) : jsnum :=
  match x with
  | NaN => NaN
  | PInf => NInf
  | NInf => PInf
  | Num q => Num (Qopp q)
  end.

Definition add (x y : jsnum) : jsnum :=
  match x, y with
  | NaN, _ | _, NaN => NaN
  | PInf, NInf | NInf, PInf => NaN
  | PInf, _ | _, PInf => PInf
  | NInf, _ | _, NInf => NInf
  | Num a, Num b => Num (a + b)
  end.

(** [x - y] *)
Definition sub (x y : jsnum) : jsnum := add x (neg y).

Definition inf_of_sign (c : comparison) : jsnum :=
  match c with
  | Eq => NaN
  | Gt => PInf
  | Lt => NInf
  end.

Definition sign (x : jsnum) : option comparison :=
  match x with
  | NaN => None
  | PInf => Some Gt
  | NInf => Some Lt
  | Num q => Some (Qsign q)
  end.

Definition sign_mul (a b : comparison) : comparison :=
  match a, b with
  | Eq, _ | _, Eq => Eq
  | Gt, Gt | Lt, Lt => Gt
  | _, _ => Lt
  end.

(** [x * y]: zero times an infinity is [NaN]. *)
Definition mul (x y : jsnum) : jsnum :=
  match x, y with
  | Num a, Num b => Num (a * b)
  | _, _ =>
      match sign x, sign y with
      | Some a, Some b => inf_of_sign (sign_mul a b)
      | _, _ => NaN
      end
  end.

(** [x / y]: a finite number over an infinity is zero, a non-zero
    number over zero is an infinity, [0 / 0] and [Inf / Inf] are [NaN]. *)
Definition div (x y : jsnum) : jsnum :=
  match x, y with
  | NaN, _ | _, NaN => NaN
  | Num a, Num b =>
      match Qsign b with
      | Eq => inf_of_sign (Qsign a)
      | _ => Num (a / b)
      end
  | Num _, _ => of_Z 0
  | _, Num b =>
      match sign x, Qsign b with
      | Some a, Lt => inf_of_sign (sign_mul a Lt)
      | Some a, _ => inf_of_sign a
      | None, _ => NaN
      end
  | _, _ => NaN
  end.

(** [Math.ceil(x)] *)
Definition ceil (x : jsnum) : jsnum :=
  match x with
  | Num q => of_Z (Qceiling q)
  | _ => x
  end.

(** [Number.isFinite(x)] *)
Definition isFinite (x : jsnum) : bool :=
  match x with
  | Num _ => true
  | _ => false
  end.

(** [1 <= x], false on [NaN]. *)
Definition ge1 (x : jsnum) : bool :=
  match x with
  | NaN | NInf => false
  | PInf => true
  | Num q => Qle_bool 1 q
  end.

(** The integer a number denotes, when it denotes one. *)
Definition to_Z (x : jsnum) : option Z :=
  match x with
  | Num q => if Qeq_bool q (inject_Z (Qfloor q)) then Some (Qfloor q) else None
  | _ => None
  end.


(** Numeric equality as [===] sees it on numbers: [NaN] equals nothing. *)
Definition eqb (x y : jsnum) : bool :=
  match x, y with
  | Num a, Num b => Qeq_bool a b
  | PInf, PInf | NInf, NInf => true
  | _, _ => false
  end.

End JsNum.

Import JsNum.

(** ** String to number: the unary [+] and [Number(...)] on strings *)

Module ToNumber.

(** The ASCII members of the WhiteSpace and LineTerminator classes. *)
Definition is_space (c : ascii) : bool :=
  match nat_of_ascii c with
  | 9%nat | 10%nat | 11%nat | 12%nat | 13%nat | 32%nat => true
  | _ => false
  end.

Fixpoint ltrim (l : list ascii) : list ascii :=
  match l with
  | c :: r => if is_space c then ltrim r else l
  | [] => []
  end.

Definition trim (l : list ascii) : list ascii := rev (ltrim (rev (ltrim l))).

Definition digit_val (c : ascii) : option Z :=
  let n := Z.of_nat (nat_of_ascii c) in
  (if (48 <=? n) && (n <=? 57) then Some (n - 48)
   else if (97 <=? n) && (n <=? 102) then Some (n - 87)
   else if (65 <=? n) && (n <=? 70) then Some (n - 55)
   else None).

(** Reads the longest prefix of digits of the given base, continuing the
    accumulator; returns the value, the number of digits read and the rest. *)
Fixpoint digits (base acc : Z) (n : nat) (l : list ascii) : Z * nat * list ascii :=
  match l with
  | c :: r =>
      match digit_val c with
      | Some d => if d <? base then digits base (acc * base + d) (S n) r
                  else (acc, n, l)
      | None => (acc, n, l)
      end
  | [] => (acc, n, l)
  end.

Definition pow10 (e : Z) : Q := Qpower (10 # 1)%Q e.

(** ExponentPart after its [e]: an optional sign and at least one digit,
    up to the end of the input. *)
Definition parse_exponent (l : list ascii) : option Z :=
  let '(sg, r) :=
    match l with
    | "+"%char :: r => (1, r)
    | "-"%char :: r => (-1, r)
    | _ => (1, l)
    end in
  match digits 10 0 0 r with
  | (v, S _, []) => Some (sg * v)
  | _ => None
  end.

(** StrUnsignedDecimalLiteral without [Infinity]. *)
Definition parse_decimal (l : list ascii) : option Q :=
  let '(ip, ni, r1) := digits 10 0 0 l in
  let '(m, nf, r2) :=
    match r1 with
    | "."%char :: r => digits 10 ip 0 r
    | _ => (ip, 0%nat, r1)
    end in
  if (ni + nf =? 0)%nat then None
  else
    match r2 with
    | [] => Some (inject_Z m * pow10 (- Z.of_nat nf))%Q
    | c :: r3 =>
        if (Ascii.eqb c "e"%char || Ascii.eqb c "E"%char)%bool then
          match parse_exponent r3 with
          | Some x => Some (inject_Z m * pow10 (x - Z.of_nat nf))%Q
          | None => None
          end
        else None
    end.

Definition infinity_lit : list ascii := list_ascii_of_string "Infinity".

Definition list_ascii_eqb (a b : list ascii) : bool :=
  String.eqb (string_of_list_ascii a) (string_of_list_ascii b).

Definition parse_unsigned (l : list ascii) : option jsnum :=
  if list_ascii_eqb l infinity_lit then Some PInf
  else match parse_decimal l with
       | Some q => Some (Num (Qred q))
       | None => None
       end.

(** NonDecimalIntegerLiteral: [0x], [0o], [0b] and at least one digit. *)
Definition parse_nondecimal (l : list ascii) : option jsnum :=
  match l with
  | "0"%char :: p :: r =>
      let base :=
        if (Ascii.eqb p "x"%char || Ascii.eqb p "X"%char)%bool then Some 16
        else if (Ascii.eqb p "o"%char || Ascii.eqb p "O"%char)%bool then Some 8
        else if (Ascii.eqb p "b"%char || Ascii.eqb p "B"%char)%bool then Some 2
        else None in
      match base with
      | Some b =>
          match digits b 0 0 r with
          | (v, S _, []) => Some (of_Z v)
          | _ => None
          end
      | None => None
      end
  | _ => None
  end.

(** StringToNumber *)
Definition string_to_number (s : string) : jsnum :=
  match trim (list_ascii_of_string s) with
  | [] => of_Z 0
  | l =>
      match parse_nondecimal l with
      | Some x => x
      | None =>
          let r :=
            match l with
            | "+"%char :: r => option_map (fun x => x) (parse_unsigned r)
            | "-"%char :: r => option_map neg (parse_unsigned r)
            | _ => parse_unsigned l
            end in
          match r with
          | Some x => x
          | None => NaN
          end
      end
  end.

End ToNumber.

Import ToNumber.

(** ** JSON values, as [res.json] sends them *)

#[local] Set Warnings "-register-all".

Inductive json : Type :=
| JNull
| JBool (b : bool)
| JNum (n : jsnum)
| JStr (s : string)
| JArr (items : list json)
| JObj (fields : list (string * json)).

Fixpoint assoc_get {V : Type} (k : string) (fields : list (string * V)) : option V :=
  match fields with
  | [] => None
  | (k', v) :: r => if String.eqb k k' then Some v else assoc_get k r
  end.

Definition json_keys (j : json) : list string :=
  match j with
  | JObj fields => map fst fields
  | _ => []
  end.

Definition json_get (k : string) (j : json) : option json :=
  match j with
  | JObj fields => assoc_get k fields
  | _ => None
  end.

Definition json_has_key (k : string) (j : json) : bool :=
  existsb (String.eqb k) (json_keys j).

Definition json_length (j : json) : option nat :=
  match j with
  | JArr items => Some (List.length items)
  | _ => None
  end.

Definition json_opt {A : Type} (enc : A -> json) (o : option A) : json :=
  match o with
  | Some a => enc a
  | None => JNull
  end.

Record response : Type := mkResponse { status : nat; body : json }.

(** [res.status(code).json({ error: msg })] *)
Definition error_response (code : nat) (msg : string) : response :=
  mkResponse code (JObj [("error", JStr msg)]).

(** ** Query-string parameters

    A member of [req.query] under the framework's default parser: absent,
    one string, or an array of strings when the key is repeated. *)

Inductive qparam : Type :=
| QAbsent
| QOne (s : string)
| QMany (l : list string).

(** Truthiness, as [if (search)] tests it. *)
Definition qtruthy (p : qparam) : bool :=
  match p with
  | QAbsent => false
  | QOne s => negb (String.eqb s "")
  | QMany _ => true
  end.

(** String conversion, as a template literal performs it: an array is
    joined with commas. *)
Definition qstring (p : qparam) : string :=
  match p with
  | QAbsent => "undefined"
  | QOne s => s
  | QMany l => String.concat "," l
  end.

(** [+p] after the destructuring default [p = dflt]. *)
Definition qnumber (dflt : Z) (p : qparam) : jsnum :=
  match p with
  | QAbsent => of_Z dflt
  | _ => string_to_number (qstring p)
  end.

(** ** [Map]: insertion-ordered, [set] on a present key replaces the value
    in place *)

Module JsMap.
Section WithValues.
Context {V : Type}.

Definition t : Type := list (Z * V).

Definition empty : t := [].

Fixpoint has (k : Z) (m : t) : bool :=
  match m with
  | [] => false
  | (k', _) :: r => (k =? k') || has k r
  end.

Fixpoint set (k : Z) (v : V) (m : t) : t :=
  match m with
  | [] => [(k, v)]
  | (k', v') :: r => if k =? k' then (k', v) :: r else (k', v') :: set k v r
  end.

Fixpoint get (k : Z) (m : t) : option V :=
  match m with
  | [] => None
  | (k', v) :: r => if k =? k' then Some v else get k r
  end.

Definition keys (m : t) : list Z := map fst m.
Definition values (m : t) : list V := map snd m.
Definition size (m : t) : nat := List.length m.
End WithValues.
Arguments t : clear implicits.
End JsMap.

(** ** Tables *)

(** [roleEnum] of [src/db/schema/auth.ts] *)
Inductive role : Type := Student | Teacher | Admin.

Definition role_name (r : role) : string :=
  match r with
  | Student => "student"
  | Teacher => "teacher"
  | Admin => "admin"
  end.

Definition timestamp : Type := Z.

(** The [user] table of [src/db/schema/auth.ts] *)
Record user : Type := mkUser {
  user_id : string;
  user_name : string;
  user_email : string;
  user_emailVerified : bool;
  user_image : option string;
  user_role : role;
  user_imageCldPubId : option string;
  user_createdAt : timestamp;
  user_updatedAt : timestamp
}.

(** Modelled from the spec: the schema file of the application tables
    (departments, subjects, classes, enrollments) is not among the
    sources; the columns are those of the specification's data model and
    of the routes' insert statements. *)
Record department : Type := mkDepartment {
  dept_id : Z;
  dept_code : string;
  dept_name : string;
  dept_description : option string;
  dept_createdAt : timestamp;
  dept_updatedAt : timestamp
}.

Record subject : Type := mkSubject {
  subj_id : Z;
  subj_departmentId : Z;
  subj_name : string;
  subj_code : string;
  subj_description : option string;
  subj_createdAt : timestamp;
  subj_updatedAt : timestamp
}.

Record class : Type := mkClass {
  cls_id : Z;
  cls_subjectId : Z;
  cls_teacherId : string;
  cls_name : string;
  cls_inviteCode : string;
  cls_capacity : Z;
  cls_status : string;
  cls_bannerUrl : option string;
  cls_bannerCldPubId : option string;
  cls_description : option string;
  cls_schedules : list json;
  cls_createdAt : timestamp;
  cls_updatedAt : timestamp
}.

Record enrollment : Type := mkEnrollment {
  enr_id : Z;
  enr_studentId : string;
  enr_classId : Z;
  enr_createdAt : timestamp;
  enr_updatedAt : timestamp
}.

Record database : Type := mkDatabase {
  users : list user;
  departments : list department;
  subjects : list subject;
  classes : list class;
  enrollments : list enrollment
}.

(** *** Rows as JSON objects (one key per selected column; a timestamp
    is written as its number) *)

Definition JZ (z : Z) : json := JNum (of_Z z).
Definition JNat (n : nat) : json := JNum (of_nat n).
Definition JOptStr (o : option string) : json := json_opt JStr o.

Definition user_columns (u : user) : list (string * json) :=
  [("id", JStr (user_id u)); ("name", JStr (user_name u));
   ("email", JStr (user_email u)); ("emailVerified", JBool (user_emailVerified u));
   ("image", JOptStr (user_image u)); ("role", JStr (role_name (user_role u)));
   ("imageCldPubId", JOptStr (user_imageCldPubId u));
   ("createdAt", JZ (user_createdAt u)); ("updatedAt", JZ (user_updatedAt u))].

Definition department_columns (d : department) : list (string * json) :=
  [("id", JZ (dept_id d)); ("code", JStr (dept_code d));
   ("name", JStr (dept_name d)); ("description", JOptStr (dept_description d));
   ("createdAt", JZ (dept_createdAt d)); ("updatedAt", JZ (dept_updatedAt d))].

Definition subject_columns (s : subject) : list (string * json) :=
  [("id", JZ (subj_id s)); ("departmentId", JZ (subj_departmentId s));
   ("name", JStr (subj_name s)); ("code", JStr (subj_code s));
   ("description", JOptStr (subj_description s));
   ("createdAt", JZ (subj_createdAt s)); ("updatedAt", JZ (subj_updatedAt s))].

Definition class_columns (c : class) : list (string * json) :=
  [("id", JZ (cls_id c)); ("subjectId", JZ (cls_subjectId c));
   ("teacherId", JStr (cls_teacherId c)); ("name", JStr (cls_name c));
   ("inviteCode", JStr (cls_inviteCode c)); ("capacity", JZ (cls_capacity c));
   ("status", JStr (cls_status c)); ("bannerUrl", JOptStr (cls_bannerUrl c));
   ("bannerCldPubId", JOptStr (cls_bannerCldPubId c));
   ("description", JOptStr (cls_description c));
   ("schedules", JArr (cls_schedules c));
   ("createdAt", JZ (cls_createdAt c)); ("updatedAt", JZ (cls_updatedAt c))].

Definition enrollment_columns (e : enrollment) : list (string * json) :=
  [("id", JZ (enr_id e)); ("studentId", JStr (enr_studentId e));
   ("classId", JZ (enr_classId e));
   ("createdAt", JZ (enr_createdAt e)); ("updatedAt", JZ (enr_updatedAt e))].

Definition user_json (u : user) : json := JObj (user_columns u).
Definition department_json (d : department) : json := JObj (department_columns d).
Definition subject_json (s : subject) : json := JObj (subject_columns s).
Definition class_json (c : class) : json := JObj (class_columns c).

(** ** The relational operations the query builder issues *)

Module Sql.

(** *** Three-valued logic *)

Definition and3 (a b : option bool) : option bool :=
  match a, b with
  | Some false, _ | _, Some false => Some false
  | Some true, Some true => Some true
  | _, _ => None
  end.

Definition or3 (a b : option bool) : option bool :=
  match a, b with
  | Some true, _ | _, Some true => Some true
  | Some false, Some false => Some false
  | _, _ => None
  end.

(** A row passes WHERE when the condition is true, not false or NULL. *)
Definition holds (v : option bool) : bool :=
  match v with
  | Some true => true
  | _ => false
  end.

(** *** ILIKE: [%] any run of characters, [_] any one character, the
    backslash quotes the next pattern character; letters match without
    regard to case. *)

Definition lower (c : ascii) : ascii :=
  let n := nat_of_ascii c in
  if ((65 <=? n) && (n <=? 90))%nat then ascii_of_nat (n + 32) else c.

Fixpoint like (p s : list ascii) {struct p} : bool :=
  match p with
  | [] => match s with [] => true | _ :: _ => false end
  | c :: p' =>
      if Ascii.eqb c "%"%char then
        (fix star (s : list ascii) : bool :=
           like p' s || match s with [] => false | _ :: s' => star s' end) s
      else if Ascii.eqb c "_"%char then
        match s with _ :: s' => like p' s' | [] => false end
      else if Ascii.eqb c "\"%char then
        match p' with
        | q :: p'' =>
            match s with x :: s' => Ascii.eqb q x && like p'' s' | [] => false end
        | [] => false
        end
      else
        match s with x :: s' => Ascii.eqb c x && like p' s' | [] => false end
  end.

Definition ilike (pattern text : string) : bool :=
  like (map lower (list_ascii_of_string pattern))
       (map lower (list_ascii_of_string text)).

(** *** Conditions over the columns [C] of a relation *)

Inductive cond (C : Type) : Type :=
| Ilike (c : C) (pattern : string)
| EqText (c : C) (v : string)
| Or (a b : cond C)
| And (conds : list (cond C)).

Arguments Ilike {C}.
Arguments EqText {C}.
Arguments Or {C}.
Arguments And {C}.

Section Eval.
Context {C R : Type}.
(** The text of a column in a row; [None] is NULL. *)
Variable col : C -> R -> option string.

Fixpoint eval (e : cond C) (r : R) : option bool :=
  match e with
  | Ilike c pattern => option_map (ilike pattern) (col c r)
  | EqText c v => option_map (String.eqb v) (col c r)
  | Or a b => or3 (eval a r) (eval b r)
  | And conds =>
      (fix all (l : list (cond C)) : option bool :=
         match l with
         | [] => Some true
         | e' :: l' => and3 (eval e' r) (all l')
         end) conds
  end.

(** [.where(w)]: [undefined] restricts nothing. *)
Definition where_ (w : option (cond C)) (rows : list R) : list R :=
  match w with
  | None => rows
  | Some e => filter (fun r => holds (eval e r)) rows
  end.
End Eval.


(** *** FROM ... LEFT JOIN ... ON *)

Definition left_join {A B : Type} (on : A -> B -> bool)
    (l : list A) (r : list B) : list (A * option B) :=
  flat_map (fun a =>
    match filter (on a) r with
    | [] => [(a, None)]
    | matches => map (fun b => (a, Some b)) matches
    end) l.

(** *** ORDER BY key DESC, as a stable insertion sort (the database
    leaves the order among equal keys open) *)

Section OrderBy.
Context {A : Type}.
Variable key : A -> Z.

Fixpoint insert_desc (a : A) (l : list A) : list A :=
  match l with
  | [] => [a]
  | b :: r => if key b <=? key a then a :: l else b :: insert_desc a r
  end.

Definition order_by_desc (l : list A) : list A :=
  fold_right insert_desc [] l.
End OrderBy.

(** *** GROUP BY key: the groups in order of first appearance, each with
    its rows in order *)

Section GroupBy.
Context {A K : Type}.
Variable eqb : K -> K -> bool.
Variable key : A -> K.

Fixpoint add_to_groups (a : A) (gs : list (K * list A)) : list (K * list A) :=
  match gs with
  | [] => [(key a, [a])]
  | (k, g) :: r =>
      if eqb (key a) k then (k, (g ++ [a])%list) :: r
      else (k, g) :: add_to_groups a r
  end.

Definition group_by (l : list A) : list (list A) :=
  map snd (fold_left (fun gs a => add_to_groups a gs) l []).
End GroupBy.

(** *** LIMIT and OFFSET over row counts *)

Definition limit_offset {A : Type} (limit offset : nat) (l : list A) : list A :=
  firstn limit (skipn offset l).

End Sql.

Import Sql.

(** ** What the list routes share *)

(** The columns the filters mention. *)
Inductive column : Type :=
| UserName | UserEmail | UserRole
| DepartmentsName | DepartmentsCode
| SubjectsName | SubjectsCode
| ClassesName | ClassesInviteCode.

(** [`%${input}%`] *)
Definition contains_pattern (input : qparam) : string :=
  "%" ++ qstring input ++ "%".

(** [filterConditions.length > 0 ? and(...filterConditions) : undefined] *)
Definition whereClause (filterConditions : list (cond column)) : option (cond column) :=
  match filterConditions with
  | [] => None
  | _ :: _ => Some (And filterConditions)
  end.

Record paging : Type := mkPaging {
  currentPage : jsnum;
  limitPerPage : jsnum;
  offset : jsnum
}.

(** [currentPage = Math.max(1, +page)], [limitPerPage = Math.max(1, +limit)],
    [offset = (currentPage - 1) * limitPerPage], with the defaults
    [page = 1] and [limit = 10]. *)
Definition paging_of (page limit : qparam) : paging :=
  let currentPage := max1 (qnumber 1 page) in
  let limitPerPage := max1 (qnumber 10 limit) in
  mkPaging currentPage limitPerPage (mul (sub currentPage (of_Z 1)) limitPerPage).

(** A number that is a row count: a non-negative integer. *)
Definition as_count (x : jsnum) : option nat :=
  match to_Z x with
  | Some z => if 0 <=? z then Some (Z.to_nat z) else None
  | None => None
  end.

(** [.limit(limitPerPage).offset(offset)].  The repository hands both
    numbers to the query builder as they are; what the builder and the
    database make of a limit or an offset that is not a row count is not
    decided by the repository's code, and the model gives no result
    there. *)
Definition page_rows {A : Type} (p : paging) (rows : list A) : option (list A) :=
  match as_count (limitPerPage p), as_count (offset p) with
  | Some l, Some o => Some (limit_offset l o rows)
  | _, _ => None
  end.

(** [Math.ceil(totalCount / limitPerPage)] *)
Definition totalPages (totalCount : nat) (p : paging) : jsnum :=
  ceil (div (of_nat totalCount) (limitPerPage p)).

Definition pagination_json (p : paging) (totalCount : nat) : json :=
  JObj [("page", JNum (currentPage p));
        ("limit", JNum (limitPerPage p));
        ("total", JNat totalCount);
        ("totalPages", JNum (totalPages totalCount p))].

(** [res.status(200).json({ data, pagination })] *)
Definition list_response (data : list json) (p : paging) (totalCount : nat) : response :=
  mkResponse 200 (JObj [("data", JArr data); ("pagination", pagination_json p totalCount)]).

(** ** [routes/users.ts]: GET /api/users *)

Record users_query : Type := mkUsersQuery {
  uq_search : qparam;
  uq_role : qparam;
  uq_page : qparam;
  uq_limit : qparam
}.

Definition user_col (c : column) (u : user) : option string :=
  match c with
  | UserName => Some (user_name u)
  | UserEmail => Some (user_email u)
  | UserRole => Some (role_name (user_role u))
  | _ => None
  end.

Definition users_filterConditions (search role : qparam) : list (cond column) :=
  ((if qtruthy search
    then [Or (Ilike UserName (contains_pattern search))
             (Ilike UserEmail (contains_pattern search))]
    else []) ++
   (if qtruthy role then [EqText UserRole (qstring role)] else []))%list.

Definition users_where (q : users_query) : option (cond column) :=
  whereClause (users_filterConditions (uq_search q) (uq_role q)).

(** [select count( * ) from user where whereClause] *)
Definition users_count_relation (db : database) (q : users_query) : list user :=
  where_ user_col (users_where q) (users db).

Definition users_total (db : database) (q : users_query) : nat :=
  List.length (users_count_relation db q).

(** [select ... from user where whereClause order by created_at desc],
    the data query before LIMIT and OFFSET. *)
Definition users_data_relation (db : database) (q : users_query) : list user :=
  where_ user_col (users_where q) (users db).

Definition users_ordered (db : database) (q : users_query) : list user :=
  order_by_desc user_createdAt (users_data_relation db q).

Definition users_page (db : database) (q : users_query) : option (list user) :=
  page_rows (paging_of (uq_page q) (uq_limit q)) (users_ordered db q).

Definition users_list (db : database) (q : users_query) : option response :=
  option_map
    (fun usersList =>
       list_response (map user_json usersList)
         (paging_of (uq_page q) (uq_limit q)) (users_total db q))
    (users_page db q).

(** ** [routes/subjects.ts]: GET /api/subjects *)

Record subjects_query : Type := mkSubjectsQuery {
  sq_search : qparam;
  sq_department : qparam;
  sq_page : qparam;
  sq_limit : qparam
}.

(** A subject with its department, [null] when the join matched none. *)
Definition subject_row : Type := (subject * option department)%type.

Definition subject_row_col (c : column) (r : subject_row) : option string :=
  match c with
  | SubjectsName => Some (subj_name (fst r))
  | SubjectsCode => Some (subj_code (fst r))
  | DepartmentsName => option_map dept_name (snd r)
  | DepartmentsCode => option_map dept_code (snd r)
  | _ => None
  end.

Definition subject_row_json (r : subject_row) : json :=
  JObj (subject_columns (fst r) ++ [("department", json_opt department_json (snd r))])%list.

Definition subjects_filterConditions (search department : qparam) : list (cond column) :=
  ((if qtruthy search
    then [Or (Ilike SubjectsName (contains_pattern search))
             (Ilike SubjectsCode (contains_pattern search))]
    else []) ++
   (if qtruthy department
    then [Ilike DepartmentsName (contains_pattern department)]
    else []))%list.

Definition subjects_where (q : subjects_query) : option (cond column) :=
  whereClause (subjects_filterConditions (sq_search q) (sq_department q)).

(** [from subjects left join departments on subjects.department_id = departments.id] *)
Definition subjects_join_departments (db : database) : list subject_row :=
  left_join (fun s d => subj_departmentId s =? dept_id d) (subjects db) (departments db).

Definition subjects_count_relation (db : database) (q : subjects_query) : list subject_row :=
  where_ subject_row_col (subjects_where q) (subjects_join_departments db).

Definition subjects_total (db : database) (q : subjects_query) : nat :=
  List.length (subjects_count_relation db q).

Definition subjects_data_relation (db : database) (q : subjects_query) : list subject_row :=
  where_ subject_row_col (subjects_where q) (subjects_join_departments db).

Definition subjects_ordered (db : database) (q : subjects_query) : list subject_row :=
  order_by_desc (fun r => subj_createdAt (fst r)) (subjects_data_relation db q).

Definition subjects_page (db : database) (q : subjects_query) : option (list subject_row) :=
  page_rows (paging_of (sq_page q) (sq_limit q)) (subjects_ordered db q).

Definition subjects_list (db : database) (q : subjects_query) : option response :=
  option_map
    (fun subjectsList =>
       list_response (map subject_row_json subjectsList)
         (paging_of (sq_page q) (sq_limit q)) (subjects_total db q))
    (subjects_page db q).

(** ** [routes/classes.ts]: GET /api/classes *)

Record classes_query : Type := mkClassesQuery {
  cq_search : qparam;
  cq_subject : qparam;
  cq_teacher : qparam;
  cq_page : qparam;
  cq_limit : qparam
}.

(** A class with its subject and its teacher, each [null] when the join
    matched none. *)
Record class_row : Type := mkClassRow {
  cr_class : class;
  cr_subject : option subject;
  cr_teacher : option user
}.

Definition class_row_col (c : column) (r : class_row) : option string :=
  match c with
  | ClassesName => Some (cls_name (cr_class r))
  | ClassesInviteCode => Some (cls_inviteCode (cr_class r))
  | SubjectsName => option_map subj_name (cr_subject r)
  | SubjectsCode => option_map subj_code (cr_subject r)
  | UserName => option_map user_name (cr_teacher r)
  | UserEmail => option_map user_email (cr_teacher r)
  | UserRole => option_map (fun u => role_name (user_role u)) (cr_teacher r)
  | _ => None
  end.

Definition class_row_json (r : class_row) : json :=
  JObj (class_columns (cr_class r) ++
        [("subject", json_opt subject_json (cr_subject r));
         ("teacher", json_opt user_json (cr_teacher r))])%list.

Definition classes_filterConditions (search subject teacher : qparam) : list (cond column) :=
  ((if qtruthy search
    then [Or (Ilike ClassesName (contains_pattern search))
             (Ilike ClassesInviteCode (contains_pattern search))]
    else []) ++
   (if qtruthy subject then [Ilike SubjectsName (contains_pattern subject)] else []) ++
   (if qtruthy teacher then [Ilike UserName (contains_pattern teacher)] else []))%list.

Definition classes_where (q : classes_query) : option (cond column) :=
  whereClause (classes_filterConditions (cq_search q) (cq_subject q) (cq_teacher q)).

(** [from classes left join subjects on classes.subject_id = subjects.id
     left join user on classes.teacher_id = user.id] *)
Definition classes_join_subjects_user (db : database) : list class_row :=
  map (fun r => mkClassRow (fst (fst r)) (snd (fst r)) (snd r))
    (left_join (fun cs u => String.eqb (cls_teacherId (fst cs)) (user_id u))
       (left_join (fun c s => cls_subjectId c =? subj_id s) (classes db) (subjects db))
       (users db)).

Definition classes_count_relation (db : database) (q : classes_query) : list class_row :=
  where_ class_row_col (classes_where q) (classes_join_subjects_user db).

Definition classes_total (db : database) (q : classes_query) : nat :=
  List.length (classes_count_relation db q).

Definition classes_data_relation (db : database) (q : classes_query) : list class_row :=
  where_ class_row_col (classes_where q) (classes_join_subjects_user db).

Definition classes_ordered (db : database) (q : classes_query) : list class_row :=
  order_by_desc (fun r => cls_createdAt (cr_class r)) (classes_data_relation db q).

Definition classes_page (db : database) (q : classes_query) : option (list class_row) :=
  page_rows (paging_of (cq_page q) (cq_limit q)) (classes_ordered db q).

Definition classes_list (db : database) (q : classes_query) : option response :=
  option_map
    (fun classesList =>
       list_response (map class_row_json classesList)
         (paging_of (cq_page q) (cq_limit q)) (classes_total db q))
    (classes_page db q).

(** ** [routes/departments.ts]: GET /api/departments *)

Record departments_query : Type := mkDepartmentsQuery {
  dq_search : qparam;
  dq_page : qparam;
  dq_limit : qparam
}.

Definition department_col (c : column) (d : department) : option string :=
  match c with
  | DepartmentsName => Some (dept_name d)
  | DepartmentsCode => Some (dept_code d)
  | _ => None
  end.

Definition department_subject_col (c : column) (r : department * option subject) : option string :=
  match c with
  | SubjectsName => option_map subj_name (snd r)
  | SubjectsCode => option_map subj_code (snd r)
  | _ => department_col c (fst r)
  end.

Definition departments_filterConditions (search : qparam) : list (cond column) :=
  if qtruthy search
  then [Or (Ilike DepartmentsName (contains_pattern search))
           (Ilike DepartmentsCode (contains_pattern search))]
  else [].

Definition departments_where (q : departments_query) : option (cond column) :=
  whereClause (departments_filterConditions (dq_search q)).

(** [select count( * ) from departments where whereClause]: no join. *)
Definition departments_count_relation (db : database) (q : departments_query) : list department :=
  where_ department_col (departments_where q) (departments db).

Definition departments_total (db : database) (q : departments_query) : nat :=
  List.length (departments_count_relation db q).

(** [from departments left join subjects on departments.id = subjects.department_id
     where whereClause] *)
Definition departments_data_relation (db : database) (q : departments_query)
    : list (department * option subject) :=
  where_ department_subject_col (departments_where q)
    (left_join (fun d s => dept_id d =? subj_departmentId s) (departments db) (subjects db)).

(** The number of non-NULL values: [count(column)]. *)
Definition count_some {A : Type} (l : list (option A)) : nat :=
  List.length (filter (fun o => match o with Some _ => true | None => false end) l).

(** A department with [totalSubjects = count(subjects.id)]. *)
Definition department_row : Type := (department * nat)%type.

(** [group by departments.id], one output row per group. *)
Definition departments_grouped (db : database) (q : departments_query) : list department_row :=
  flat_map (fun g =>
    match g with
    | [] => []
    | r :: _ => [(fst r, count_some (map snd g))]
    end)
    (group_by Z.eqb (fun r => dept_id (fst r)) (departments_data_relation db q)).

Definition department_row_json (r : department_row) : json :=
  JObj (department_columns (fst r) ++ [("totalSubjects", JNat (snd r))])%list.

Definition departments_ordered (db : database) (q : departments_query) : list department_row :=
  order_by_desc (fun r => dept_createdAt (fst r)) (departments_grouped db q).

Definition departments_page (db : database) (q : departments_query) : option (list department_row) :=
  page_rows (paging_of (dq_page q) (dq_limit q)) (departments_ordered db q).

Definition departments_list (db : database) (q : departments_query) : option response :=
  option_map
    (fun departmentsList =>
       list_response (map department_row_json departmentsList)
         (paging_of (dq_page q) (dq_limit q)) (departments_total db q))
    (departments_page db q).

(** ** The join-result flattener of the detail routes *)

(** Truthiness of a numeric id: [if (row.child?.id)] passes for every id
    but zero. *)
Definition id_truthy (id : Z) : bool := negb (id =? 0).

(** [if (row.child?.id) { childMap.set(row.child.id, row.child) }] *)
Definition collect {A : Type} (id : A -> Z) (child : option A) (m : JsMap.t A) : JsMap.t A :=
  match child with
  | Some a => if id_truthy (id a) then JsMap.set (id a) a m else m
  | None => m
  end.

(** One [Map] filled by a loop over the rows. *)
Definition flatten {R A : Type} (id : A -> Z) (child : R -> option A) (rows : list R) : JsMap.t A :=
  fold_left (fun m row => collect id (child row) m) rows JsMap.empty.

(** Two [Map]s filled in the same loop, as the handlers do. *)
Definition flatten2 {R A B : Type} (idA : A -> Z) (childA : R -> option A)
    (idB : B -> Z) (childB : R -> option B) (rows : list R) : JsMap.t A * JsMap.t B :=
  fold_left
    (fun maps row =>
       (collect idA (childA row) (fst maps), collect idB (childB row) (snd maps)))
    rows (JsMap.empty, JsMap.empty).

(** ** [routes/users.ts]: GET /api/users/:id *)

(** A class of the teacher with its subject and the subject's department. *)
Record taught_row : Type := mkTaughtRow {
  tr_class : class;
  tr_subject : option subject;
  tr_department : option department
}.

Definition subject_department_on (os : option subject) (d : department) : bool :=
  match os with
  | Some s => subj_departmentId s =? dept_id d
  | None => false
  end.

(** [from classes left join subjects on classes.subject_id = subjects.id
     left join departments on subjects.department_id = departments.id
     where classes.teacher_id = userId order by classes.created_at desc] *)
Definition taught_classes (db : database) (userId : string) : list taught_row :=
  order_by_desc (fun r => cls_createdAt (tr_class r))
    (filter (fun r => String.eqb (cls_teacherId (tr_class r)) userId)
       (map (fun r => mkTaughtRow (fst (fst r)) (snd (fst r)) (snd r))
          (left_join (fun cs d => subject_department_on (snd cs) d)
             (left_join (fun c s => cls_subjectId c =? subj_id s) (classes db) (subjects db))
             (departments db)))).

Definition taught_row_json (r : taught_row) : json :=
  JObj (class_columns (tr_class r) ++
        [("subject", json_opt subject_json (tr_subject r));
         ("department", json_opt department_json (tr_department r))])%list.

(** An enrollment of the student with its class, the class's subject,
    department and teacher. *)
Record enrolled_row : Type := mkEnrolledRow {
  er_enrollment : enrollment;
  er_class : option class;
  er_subject : option subject;
  er_department : option department;
  er_teacher : option user
}.

Definition class_subject_on (oc : option class) (s : subject) : bool :=
  match oc with
  | Some c => cls_subjectId c =? subj_id s
  | None => false
  end.

Definition class_teacher_on (oc : option class) (u : user) : bool :=
  match oc with
  | Some c => String.eqb (cls_teacherId c) (user_id u)
  | None => false
  end.

(** [from enrollments left join classes on enrollments.class_id = classes.id
     left join subjects on classes.subject_id = subjects.id
     left join departments on subjects.department_id = departments.id
     left join user on classes.teacher_id = user.id
     where enrollments.student_id = userId order by enrollments.created_at desc] *)
Definition student_enrollments (db : database) (userId : string) : list enrolled_row :=
  order_by_desc (fun r => enr_createdAt (er_enrollment r))
    (filter (fun r => String.eqb (enr_studentId (er_enrollment r)) userId)
       (map (fun r =>
               match r with
               | ((((e, oc), os), od), ou) => mkEnrolledRow e oc os od ou
               end)
          (left_join (fun r u => class_teacher_on (snd (fst (fst r))) u)
             (left_join (fun r d => subject_department_on (snd r) d)
                (left_join (fun r s => class_subject_on (snd r) s)
                   (left_join (fun e c => enr_classId e =? cls_id c)
                      (enrollments db) (classes db))
                   (subjects db))
                (departments db))
             (users db)))).

Definition enrolled_row_json (r : enrolled_row) : json :=
  JObj (enrollment_columns (er_enrollment r) ++
        [("class", json_opt class_json (er_class r));
         ("subject", json_opt subject_json (er_subject r));
         ("department", json_opt department_json (er_department r));
         ("teacher", json_opt user_json (er_teacher r))])%list.

Definition teacher_data (db : database) (userDetails : user) (userId : string) : json :=
  let classesList := taught_classes db userId in
  let maps := flatten2 subj_id tr_subject dept_id tr_department classesList in
  let subjectMap := fst maps in
  let departmentMap := snd maps in
  JObj [("user", user_json userDetails);
        ("classes", JArr (map taught_row_json classesList));
        ("subjects", JArr (map subject_json (JsMap.values subjectMap)));
        ("departments", JArr (map department_json (JsMap.values departmentMap)));
        ("totals", JObj [("classes", JNat (List.length classesList));
                         ("subjects", JNat (JsMap.size subjectMap));
                         ("departments", JNat (JsMap.size departmentMap))])].

Definition student_data (db : database) (userDetails : user) (userId : string) : json :=
  let enrollmentsList := student_enrollments db userId in
  let maps := flatten2 cls_id er_class subj_id er_subject enrollmentsList in
  let classMap := fst maps in
  let subjectMap := snd maps in
  JObj [("user", user_json userDetails);
        ("enrollments", JArr (map enrolled_row_json enrollmentsList));
        ("classes", JArr (map class_json (JsMap.values classMap)));
        ("subjects", JArr (map subject_json (JsMap.values subjectMap)));
        ("totals", JObj [("enrollments", JNat (List.length enrollmentsList));
                         ("classes", JNat (JsMap.size classMap));
                         ("subjects", JNat (JsMap.size subjectMap))])].

(** [select ... from user where user.id = userId], first row. *)
Definition find_user (db : database) (userId : string) : option user :=
  hd_error (filter (fun u => String.eqb (user_id u) userId) (users db)).

Definition users_detail (db : database) (userId : string) : response :=
  match find_user db userId with
  | None => error_response 404 "User not found"
  | Some userDetails =>
      match user_role userDetails with
      | Teacher => mkResponse 200 (JObj [("data", teacher_data db userDetails userId)])
      | Student => mkResponse 200 (JObj [("data", student_data db userDetails userId)])
      | Admin => mkResponse 200 (JObj [("data", JObj [("user", user_json userDetails)])])
      end
  end.

(** ** [routes/departments.ts]: GET /api/departments/:id *)

(** [eq(column, n)] for an integer column and a JavaScript number. *)
Definition id_is (id : Z) (n : jsnum) : bool := JsNum.eqb (of_Z id) n.

Definition find_department (db : database) (departmentId : jsnum) : option department :=
  hd_error (filter (fun d => id_is (dept_id d) departmentId) (departments db)).

(** A subject with [totalClasses = count(classes.id)]. *)
Definition counted_subject : Type := (subject * nat)%type.

(** [from subjects left join classes on subjects.id = classes.subject_id
     where subjects.department_id = departmentId
     group by subjects.id order by subjects.created_at desc] *)
Definition department_subjects (db : database) (departmentId : jsnum) : list counted_subject :=
  order_by_desc (fun r => subj_createdAt (fst r))
    (flat_map (fun g =>
       match g with
       | [] => []
       | r :: _ => [(fst r, count_some (map snd g))]
       end)
       (group_by Z.eqb (fun r : subject * option class => subj_id (fst r))
          (filter (fun r => id_is (subj_departmentId (fst r)) departmentId)
             (left_join (fun s c => subj_id s =? cls_subjectId c)
                (subjects db) (classes db))))).

Definition counted_subject_json (r : counted_subject) : json :=
  JObj (subject_columns (fst r) ++ [("totalClasses", JNat (snd r))])%list.

(** [from classes left join subjects ... left join user ...
     where subjects.department_id = departmentId
     order by classes.created_at desc]; a class without subject has a
    NULL department id and does not pass. *)
Definition department_classes (db : database) (departmentId : jsnum) : list class_row :=
  order_by_desc (fun r => cls_createdAt (cr_class r))
    (filter (fun r =>
               match cr_subject r with
               | Some s => id_is (subj_departmentId s) departmentId
               | None => false
               end)
       (classes_join_subjects_user db)).

Definition role_eqb (a b : role) : bool :=
  match a, b with
  | Student, Student | Teacher, Teacher | Admin, Admin => true
  | _, _ => false
  end.

Definition option_string_eqb (a b : option string) : bool :=
  match a, b with
  | Some x, Some y => String.eqb x y
  | None, None => true
  | _, _ => false
  end.

(** The grouping columns [user.id, user.name, user.email, user.image,
    user.role]. *)
Definition student_key : Type := (string * string * string * option string * role)%type.

Definition student_key_of (u : user) : student_key :=
  (user_id u, user_name u, user_email u, user_image u, user_role u).

Definition student_key_eqb (a b : student_key) : bool :=
  match a, b with
  | (i, n, e, im, r), (i', n', e', im', r') =>
      String.eqb i i' && String.eqb n n' && String.eqb e e' &&
      option_string_eqb im im' && role_eqb r r'
  end.

Definition enrollment_class_on (oe : option enrollment) (c : class) : bool :=
  match oe with
  | Some e => enr_classId e =? cls_id c
  | None => false
  end.

(** [from user left join enrollments on user.id = enrollments.student_id
     left join classes on enrollments.class_id = classes.id
     left join subjects on classes.subject_id = subjects.id
     where user.role = 'student' and subjects.department_id = departmentId
     group by user.id, user.name, user.email, user.image, user.role
     order by user.created_at desc] *)
Definition department_students (db : database) (departmentId : jsnum) : list user :=
  order_by_desc user_createdAt
    (flat_map (fun g => match g with [] => [] | u :: _ => [u] end)
       (group_by student_key_eqb student_key_of
          (map (fun r => fst (fst (fst r)))
             (filter (fun r : user * option enrollment * option class * option subject =>
                        role_eqb (user_role (fst (fst (fst r)))) Student &&
                        match snd r with
                        | Some s => id_is (subj_departmentId s) departmentId
                        | None => false
                        end)
                (left_join (fun r s => class_subject_on (snd r) s)
                   (left_join (fun r c => enrollment_class_on (snd r) c)
                      (left_join (fun u e => String.eqb (user_id u) (enr_studentId e))
                         (users db) (enrollments db))
                      (classes db))
                   (subjects db)))))).

Definition enrolled_student_json (u : user) : json :=
  JObj [("id", JStr (user_id u)); ("name", JStr (user_name u));
        ("email", JStr (user_email u)); ("image", JOptStr (user_image u));
        ("role", JStr (role_name (user_role u)))].

Definition departments_detail (db : database) (id : string) : response :=
  let departmentId := string_to_number id in
  if negb (isFinite departmentId) then error_response 400 "Invalid department id"
  else
    match find_department db departmentId with
    | None => error_response 404 "Department not found"
    | Some department =>
        let subjectsList := department_subjects db departmentId in
        let classesList := department_classes db departmentId in
        let enrolledStudents := department_students db departmentId in
        mkResponse 200
          (JObj [("data",
             JObj [("department", department_json department);
                   ("subjects", JArr (map counted_subject_json subjectsList));
                   ("classes", JArr (map class_row_json classesList));
                   ("enrolledStudents", JArr (map enrolled_student_json enrolledStudents));
                   ("totals",
                    JObj [("subjects", JNat (List.length subjectsList));
                          ("classes", JNat (List.length classesList));
                          ("enrolledStudents", JNat (List.length enrolledStudents))])])])
    end.

(** ** [routes/subjects.ts]: GET /api/subjects/:id *)

Definition find_subject (db : database) (subjectId : jsnum) : option subject_row :=
  hd_error (filter (fun r => id_is (subj_id (fst r)) subjectId) (subjects_join_departments db)).

(** A class with its teacher. *)
Definition subject_class_row : Type := (class * option user)%type.

(** [from classes left join user on classes.teacher_id = user.id
     where classes.subject_id = subjectId order by classes.created_at desc] *)
Definition subject_classes (db : database) (subjectId : jsnum) : list subject_class_row :=
  order_by_desc (fun r => cls_createdAt (fst r))
    (filter (fun r => id_is (cls_subjectId (fst r)) subjectId)
       (left_join (fun c u => String.eqb (cls_teacherId c) (user_id u))
          (classes db) (users db))).

Definition subject_class_row_json (r : subject_class_row) : json :=
  JObj (class_columns (fst r) ++ [("teacher", json_opt user_json (snd r))])%list.

Definition subjects_detail (db : database) (id : string) : response :=
  let subjectId := string_to_number id in
  if negb (isFinite subjectId) then error_response 400 "Invalid subject id"
  else
    match find_subject db subjectId with
    | None => error_response 404 "Subject not found"
    | Some subject =>
        let classesList := subject_classes db subjectId in
        mkResponse 200
          (JObj [("data",
             JObj [("subject", subject_row_json subject);
                   ("classes", JArr (map subject_class_row_json classesList));
                   ("totals", JObj [("classes", JNat (List.length classesList))])])])
    end.

(** ** The GET routes each router registers, and their mount points *)

Definition query : Type := list (string * qparam).

Definition query_get (k : string) (q : query) : qparam :=
  match assoc_get k q with
  | Some p => p
  | None => QAbsent
  end.

(** What becomes of a GET request: a handler modelled here answers it
    ([None] where the answer rests with the query builder and the
    database, see [page_rows]), or it goes to a part of the application
    that is not modelled, or no registered route matches and the
    framework answers in its own way.  A path is the list of its
    non-empty segments. *)
Inductive outcome : Type :=
| Handled (r : option response)
| Elsewhere
| NoRoute.

(** The destructuring of [req.query] in each list handler. *)
Definition users_query_of (q : query) : users_query :=
  mkUsersQuery (query_get "search" q) (query_get "role" q)
    (query_get "page" q) (query_get "limit" q).

Definition subjects_query_of (q : query) : subjects_query :=
  mkSubjectsQuery (query_get "search" q) (query_get "department" q)
    (query_get "page" q) (query_get "limit" q).

Definition classes_query_of (q : query) : classes_query :=
  mkClassesQuery (query_get "search" q) (query_get "subject" q)
    (query_get "teacher" q) (query_get "page" q) (query_get "limit" q).

Definition departments_query_of (q : query) : departments_query :=
  mkDepartmentsQuery (query_get "search" q) (query_get "page" q) (query_get "limit" q).

(** [router.get("/")] and [router.get("/:id")] of [routes/users.ts] *)
Definition users_router (db : database) (path : list string) (q : query) : outcome :=
  match path with
  | [] => Handled (users_list db (users_query_of q))
  | [id] => Handled (Some (users_detail db id))
  | _ => NoRoute
  end.

Definition subjects_router (db : database) (path : list string) (q : query) : outcome :=
  match path with
  | [] => Handled (subjects_list db (subjects_query_of q))
  | [id] => Handled (Some (subjects_detail db id))
  | _ => NoRoute
  end.

Definition departments_router (db : database) (path : list string) (q : query) : outcome :=
  match path with
  | [] => Handled (departments_list db (departments_query_of q))
  | [id] => Handled (Some (departments_detail db id))
  | _ => NoRoute
  end.

(** [routes/classes.ts] registers [router.get("/")] only. *)
Definition classes_router (db : database) (path : list string) (q : query) : outcome :=
  match path with
  | [] => Handled (classes_list db (classes_query_of q))
  | _ => NoRoute
  end.

(** The mount points of [index.ts]; the authentication handler and the
    stats and enrollments routers are not modelled, and the root route
    sends a line of text. *)
Definition app_get (db : database) (path : list string) (q : query) : outcome :=
  match path with
  | "api" :: "auth" :: _ => Elsewhere
  | "api" :: "subjects" :: rest => subjects_router db rest q
  | "api" :: "users" :: rest => users_router db rest q
  | "api" :: "classes" :: rest => classes_router db rest q
  | "api" :: "departments" :: rest => departments_router db rest q
  | "api" :: "stats" :: _ => Elsewhere
  | "api" :: "enrollments" :: _ => Elsewhere
  | [] => Handled (Some (mkResponse 200 (JStr "Backend server is running!")))
  | _ => NoRoute
  end.

(** ** Vocabulary of the statements *)

(** Newest first. *)
Definition descending {A : Type} (key : A -> Z) (l : list A) : Prop :=
  StronglySorted (fun a b => key b <= key a) l.

Fixpoint json_path (path : list string) (j : json) : option json :=
  match path with
  | [] => Some j
  | k :: rest =>
      match json_get k j with
      | Some j' => json_path rest j'
      | None => None
      end
  end.

Definition json_path_length (path : list string) (j : json) : option nat :=
  match json_path path j with
  | Some j' => json_length j'
  | None => None
  end.

(** The non-NULL children of a result set, in row order. *)
Definition children {R A : Type} (child : R -> option A) (rows : list R) : list A :=
  flat_map (fun r => match child r with Some a => [a] | None => [] end) rows.

(** The children the flattener's loop lets through: non-NULL and with a
    truthy id. *)
Definition kept {R A : Type} (id : A -> Z) (child : R -> option A) (rows : list R) : list A :=
  filter (fun a => id_truthy (id a)) (children child rows).

(** The keys of a list in order of first appearance. *)
Fixpoint add_key {K : Type} (eqb : K -> K -> bool) (k : K) (seen : list K) : list K :=
  match seen with
  | [] => [k]
  | k' :: r => if eqb k k' then seen else k' :: add_key eqb k r
  end.

Definition distinct_keys {K : Type} (eqb : K -> K -> bool) (l : list K) : list K :=
  fold_left (fun seen k => add_key eqb k seen) l [].




(** The rows of one left row in a left join. *)
Definition join_block {A B : Type} (on : A -> B -> bool) (r : list B) (a : A)
    : list (A * option B) :=
  match filter (on a) r with
  | [] => [(a, None)]
  | matches => map (fun b => (a, Some b)) matches
  end.

(** The four list endpoints. *)
Inductive endpoint : Type := Users | Subjects | Classes | Departments.

Definition mount (e : endpoint) : string :=
  match e with
  | Users => "users"
  | Subjects => "subjects"
  | Classes => "classes"
  | Departments => "departments"
  end.

(** GET /api/<resource> with the given query string. *)
Definition list_endpoint (db : database) (e : endpoint) (q : query) : outcome :=
  app_get db ["api"; mount e] q.


Definition list_paging (q : query) : paging :=
  paging_of (query_get "page" q) (query_get "limit" q).

Definition list_where (e : endpoint) (q : query) : option (cond column) :=
  match e with
  | Users => users_where (users_query_of q)
  | Subjects => subjects_where (subjects_query_of q)
  | Classes => classes_where (classes_query_of q)
  | Departments => departments_where (departments_query_of q)
  end.

(** What the count query returns. *)
Definition list_total (db : database) (e : endpoint) (q : query) : nat :=
  match e with
  | Users => users_total db (users_query_of q)
  | Subjects => subjects_total db (subjects_query_of q)
  | Classes => classes_total db (classes_query_of q)
  | Departments => departments_total db (departments_query_of q)
  end.

(** The rows of the data query before LIMIT and OFFSET, as JSON. *)
Definition list_all (db : database) (e : endpoint) (q : query) : list json :=
  match e with
  | Users => map user_json (users_ordered db (users_query_of q))
  | Subjects => map subject_row_json (subjects_ordered db (subjects_query_of q))
  | Classes => map class_row_json (classes_ordered db (classes_query_of q))
  | Departments => map department_row_json (departments_ordered db (departments_query_of q))
  end.

(** The rows FROM and JOIN produce before any WHERE. *)
Definition list_unfiltered (db : database) (e : endpoint) : nat :=
  match e with
  | Users => List.length (users db)
  | Subjects => List.length (subjects_join_departments db)
  | Classes => List.length (classes_join_subjects_user db)
  | Departments => List.length (departments db)
  end.




(** The subjects of a department and the classes under those subjects. *)
Definition subjects_of (db : database) (d : department) : list subject :=
  filter (fun s => subj_departmentId s =? dept_id d) (subjects db).

Definition classes_under (db : database) (d : department) : list class :=
  filter (fun c => existsb (fun s => cls_subjectId c =? subj_id s) (subjects_of db d))
    (classes db).

(** The query string with the given [page] and [limit] in front. *)
Definition paged (page limit : qparam) (q : query) : query :=
  ("page", page) :: ("limit", limit) :: q.

(** Ids are primary keys. *)
Record primary_keys (db : database) : Prop := mkPrimaryKeys {
  users_pk : NoDup (map user_id (users db));
  departments_pk : NoDup (map dept_id (departments db));
  subjects_pk : NoDup (map subj_id (subjects db));
  classes_pk : NoDup (map cls_id (classes db))
}.

(** The decimal numeral of a natural number, as a client writes an id, a
    page or a limit into a URL. *)
Definition decimal (n : nat) : string :=
  DecimalString.NilEmpty.string_of_uint (Nat.to_uint n).

(** The [data] array of an answer, empty when there is none. *)
Definition response_data (o : outcome) : list json :=
  match o with
  | Handled (Some r) =>
      match json_get "data" (body r) with
      | Some (JArr items) => items
      | _ => []
      end
  | _ => []
  end.

(** The query string asking for page [P] with [L] rows a page. *)
Definition page_query (P L : nat) (q : query) : query :=
  paged (QOne (decimal P)) (QOne (decimal L)) q.

(** A student with an enrollment in a class of a subject of the
    department numbered [id]. *)
Definition studies_in (db : database) (id : jsnum) (u : user) : bool :=
  role_eqb (user_role u) Student &&
  existsb (fun e =>
    String.eqb (user_id u) (enr_studentId e) &&
    existsb (fun c =>
      (enr_classId e =? cls_id c) &&
      existsb (fun s =>
        (cls_subjectId c =? subj_id s) && id_is (subj_departmentId s) id)
        (subjects db))
      (classes db))
    (enrollments db).

(** The rows of the students query for the users [l], before its
    WHERE clause, and the clause itself. *)
Definition student_chain (db : database) (l : list user)
    : list (user * option enrollment * option class * option subject) :=
  left_join (fun r s => class_subject_on (snd r) s)
    (left_join (fun r c => enrollment_class_on (snd r) c)
       (left_join (fun u e => String.eqb (user_id u) (enr_studentId e))
          l (enrollments db))
       (classes db))
    (subjects db).

Definition student_passes (id : jsnum)
    (r : user * option enrollment * option class * option subject) : bool :=
  role_eqb (user_role (fst (fst (fst r)))) Student &&
  match snd r with
  | Some s => id_is (subj_departmentId s) id
  | None => false
  end.

(** The rows of one user that pass, as the user repeated. *)
Definition student_block (db : database) (id : jsnum) (u : user) : list user :=
  map (fun r : user * option enrollment * option class * option subject =>
         fst (fst (fst r)))
    (filter (student_passes id) (student_chain db [u])).




(** An ASCII letter. *)
Definition is_letter (c : ascii) : bool :=
  let n := nat_of_ascii c in
  ((65 <=? n) && (n <=? 90) || (97 <=? n) && (n <=? 122))%nat.

(** ** A small database for the examples *)

Module Sample.

Definition tess : user :=
  mkUser "t1" "Tess" "tess@school.test" true None Teacher None 10 10.
Definition sam : user :=
  mkUser "s1" "Sam" "sam@school.test" true None Student None 20 20.
Definition ada : user :=
  mkUser "a1" "Ada" "ada@school.test" true None Admin None 30 30.

Definition cs : department := mkDepartment 1 "CS" "Computer Science" None 5 5.
Definition math : department := mkDepartment 2 "MATH" "Mathematics" None 6 6.

Definition algorithms : subject := mkSubject 1 1 "Algorithms" "CS101" None 7 7.
Definition databases : subject := mkSubject 2 1 "Databases" "CS102" None 8 8.
Definition algebra : subject := mkSubject 3 2 "Algebra" "MA101" None 9 9.

Definition mk_class (id subjectId : Z) (name code : string) (t : timestamp) : class :=
  mkClass id subjectId "t1" name code 30 "active" None None None [] t t.

Definition algo_a : class := mk_class 1 1 "Algorithms A" "aaa1111" 11.
Definition algo_b : class := mk_class 2 1 "Algorithms B" "bbb2222" 12.
Definition db_a : class := mk_class 3 2 "Databases A" "ccc3333" 13.

Definition db : database :=
  mkDatabase [tess; sam; ada] [cs; math] [algorithms; databases; algebra]
    [algo_a; algo_b; db_a]
    [mkEnrollment 1 "s1" 1 21 21; mkEnrollment 2 "s1" 2 22 22].

(** One department with two subjects. *)
Definition one_department : database :=
  mkDatabase [] [cs] [algorithms; databases] [] [].


End Sample.

(** * Properties *)

(** ** Numbers *)

Section NumberFacts.

Local Open Scope Q_scope.

Lemma max1_ge1 (x : jsnum) : x <> NaN -> ge1 (max1 x) = true.
Proof.
destruct x as [| | |q]; intros Hx; try reflexivity; [congruence|].
simpl. destruct (Qle_bool q 1) eqn:Hq; simpl.
- reflexivity.
- apply Qle_bool_iff. apply Qlt_le_weak. apply Qnot_le_lt.
  intros Hle. apply Qle_bool_iff in Hle. congruence.
Qed.

Lemma max1_is_nan (x : jsnum) : max1 x = NaN <-> x = NaN.
Proof.
destruct x as [| | |q]; simpl; unfold of_Z; split; intros H; try congruence.
destruct (Qle_bool q 1); discriminate.
Qed.


Lemma to_Z_intro (q : Q) (z : Z) : q == inject_Z z -> to_Z (Num q) = Some z.
Proof.
intros H. unfold to_Z.
assert (Hf : Qfloor q = z) by (rewrite H; apply Qfloor_Z).
rewrite Hf. apply Qeq_bool_iff in H. now rewrite H.
Qed.

Lemma to_Z_elim (x : jsnum) (z : Z) :
to_Z x = Some z -> exists q, x = Num q /\ q == inject_Z z.
Proof.
destruct x as [| | |q]; simpl; try discriminate.
destruct (Qeq_bool q (inject_Z (Qfloor q))) eqn:H; [|discriminate].
intros [= <-]. exists q. split; [reflexivity|]. now apply Qeq_bool_iff.
Qed.

Lemma to_Z_max1 (x : jsnum) (z : Z) :
to_Z x = Some z -> to_Z (max1 x) = Some (Z.max 1 z).
Proof.
intros H. destruct (to_Z_elim _ _ H) as (q & -> & Hq).
simpl max1. destruct (Qle_bool q 1) eqn:Hle.
- apply Qle_bool_iff in Hle. rewrite Hq in Hle.
  change 1 with (inject_Z 1) in Hle. rewrite <- Zle_Qle in Hle.
  rewrite Z.max_l by assumption. apply to_Z_intro. reflexivity.
- assert (Hlt : 1 < q).
  { apply Qnot_le_lt. intros Hc. apply Qle_bool_iff in Hc. congruence. }
  rewrite Hq in Hlt. change 1 with (inject_Z 1) in Hlt. rewrite <- Zlt_Qlt in Hlt.
  rewrite Z.max_r by lia. now apply to_Z_intro.
Qed.

Lemma to_Z_ge1 (x : jsnum) (z : Z) :
to_Z (max1 x) = Some z -> (1 <= z)%Z.
Proof.
intros H.
assert (Hx : x <> NaN) by (intros ->; discriminate).
apply max1_ge1 in Hx.
destruct (to_Z_elim _ _ H) as (q & Hm & Hq). rewrite Hm in Hx. simpl in Hx.
apply Qle_bool_iff in Hx. rewrite Hq in Hx.
change 1 with (inject_Z 1) in Hx. now rewrite <- Zle_Qle in Hx.
Qed.


(** [(P - 1) * L] on integers. *)
Lemma to_Z_offset (a b : jsnum) (P L : Z) :
to_Z a = Some P -> to_Z b = Some L ->
to_Z (mul (sub a (of_Z 1)) b) = Some ((P - 1) * L)%Z.
Proof.
intros Ha Hb.
destruct (to_Z_elim _ _ Ha) as (p & -> & Hp).
destruct (to_Z_elim _ _ Hb) as (l & -> & Hl).
simpl. apply to_Z_intro. rewrite Hp, Hl.
rewrite inject_Z_mult. unfold Z.sub. rewrite inject_Z_plus, inject_Z_opp.
reflexivity.
Qed.


End NumberFacts.

Lemma as_count_intro (x : jsnum) (z : Z) :
  to_Z x = Some z -> 0 <= z -> as_count x = Some (Z.to_nat z).
Proof.
  intros H Hz. unfold as_count. rewrite H.
  destruct (0 <=? z) eqn:E; [reflexivity|lia].
Qed.
Example to_number_abc : string_to_number "abc" = NaN.
Proof. reflexivity. Qed.

Example to_number_2_5 : string_to_number "2.5" = Num (5 # 2).
Proof. reflexivity. Qed.

Example to_number_neg3 : string_to_number " -3 " = Num (-3 # 1).
Proof. reflexivity. Qed.

Example to_number_hex : string_to_number "0x1F" = Num (31 # 1).
Proof. reflexivity. Qed.

Example to_number_exp : string_to_number "1e3" = Num (1000 # 1).
Proof. reflexivity. Qed.

Example to_number_inf : string_to_number "-Infinity" = NInf.
Proof. reflexivity. Qed.

Example to_number_empty : string_to_number "" = Num 0.
Proof. reflexivity. Qed.

Example to_number_12abc : string_to_number "12abc" = NaN.
Proof. reflexivity. Qed.


(** ** ORDER BY *)

Section OrderFacts.
Context {A : Type}.
Variable key : A -> Z.

Lemma insert_desc_perm (a : A) (l : list A) :
  Permutation (a :: l) (insert_desc key a l).
Proof.
  induction l as [|b r IH]; simpl.
  - apply Permutation_refl.
  - destruct (key b <=? key a).
    + apply Permutation_refl.
    + eapply Permutation_trans; [apply perm_swap|]. now apply perm_skip.
Qed.

Lemma order_by_desc_perm (l : list A) : Permutation l (order_by_desc key l).
Proof.
  induction l as [|a l IH]; simpl.
  - apply perm_nil.
  - eapply Permutation_trans; [|apply insert_desc_perm]. now apply perm_skip.
Qed.

Lemma order_by_desc_length (l : list A) :
  List.length (order_by_desc key l) = List.length l.
Proof. symmetry. apply Permutation_length, order_by_desc_perm. Qed.

Lemma insert_desc_sorted (a : A) (l : list A) :
  descending key l -> descending key (insert_desc key a l).
Proof.
  unfold descending. induction l as [|b r IH]; simpl; intros Hs.
  - constructor; [constructor|constructor].
  - inversion Hs as [|? ? Hr Hb]; subst.
    destruct (key b <=? key a) eqn:E.
    + constructor; [assumption|].
      constructor; [lia|].
      eapply Forall_impl; [|exact Hb]. simpl. intros x Hx. lia.
    + constructor; [now apply IH|].
      eapply Permutation_Forall; [apply insert_desc_perm|].
      constructor; [lia|assumption].
Qed.

Lemma order_by_desc_sorted (l : list A) : descending key (order_by_desc key l).
Proof.
  induction l as [|a l IH]; simpl.
  - constructor.
  - now apply insert_desc_sorted.
Qed.

Lemma descending_skipn (n : nat) (l : list A) :
  descending key l -> descending key (skipn n l).
Proof.
  unfold descending. revert l. induction n as [|n IH]; intros [|a l] Hs; simpl; auto.
  inversion Hs; subst. now apply IH.
Qed.

Lemma descending_firstn (n : nat) (l : list A) :
  descending key l -> descending key (firstn n l).
Proof.
  unfold descending. revert l.
  induction n as [|n IH]; intros [|a l] Hs; simpl; try constructor.
  - inversion Hs; subst. now apply IH.
  - inversion Hs as [|? ? _ Hf]; subst.
    rewrite Forall_forall in *. intros x Hx. apply Hf.
    rewrite <- (firstn_skipn n l). apply in_or_app. now left.
Qed.

Lemma descending_page (limit offset_ : nat) (l : list A) :
  descending key (limit_offset limit offset_ (order_by_desc key l)).
Proof.
  unfold limit_offset.
  apply descending_firstn, descending_skipn, order_by_desc_sorted.
Qed.
End OrderFacts.

(** ** LEFT JOIN *)

Section JoinFacts.
Context {A B : Type}.
Variable on : A -> B -> bool.

Lemma left_join_blocks (l : list A) (r : list B) :
  left_join on l r = flat_map (join_block on r) l.
Proof. reflexivity. Qed.

Lemma join_block_fst (r : list B) (a : A) (x : A * option B) :
  In x (join_block on r a) -> fst x = a.
Proof.
  unfold join_block. destruct (filter (on a) r) as [|b m].
  - intros [<-|[]]. reflexivity.
  - intros Hx. apply in_map_iff in Hx. destruct Hx as (y & <- & _). reflexivity.
Qed.

Lemma join_block_nonempty (r : list B) (a : A) : join_block on r a <> [].
Proof.
  unfold join_block. destruct (filter (on a) r); discriminate.
Qed.

Lemma join_block_head (r : list B) (a : A) :
  exists o rest, join_block on r a = (a, o) :: rest.
Proof.
  unfold join_block. destruct (filter (on a) r) as [|b m]; simpl; eauto.
Qed.

(** A condition on the left row alone selects whole blocks. *)
Lemma filter_join_blocks (P : A -> bool) (l : list A) (r : list B) :
  filter (fun x => P (fst x)) (flat_map (join_block on r) l)
  = flat_map (join_block on r) (filter P l).
Proof.
  induction l as [|a l IH]; simpl; [reflexivity|].
  rewrite filter_app, IH.
  assert (Hb : filter (fun x => P (fst x)) (join_block on r a)
               = if P a then join_block on r a else []).
  { assert (H := join_block_fst r a).
    induction (join_block on r a) as [|x xs IHx]; simpl.
    - now destruct (P a).
    - rewrite (H x (or_introl eq_refl)).
      rewrite IHx by (intros y Hy; apply H; now right).
      now destruct (P a). }
  rewrite Hb. destruct (P a); reflexivity.
Qed.

(** When the right side has at most one match per left row, the join
    keeps one row per left row. *)
Lemma left_join_functional (l : list A) (r : list B) :
  (forall a, (List.length (filter (on a) r) <= 1)%nat) ->
  left_join on l r = map (fun a => (a, find (on a) r)) l.
Proof.
  intros H. rewrite left_join_blocks.
  induction l as [|a l IH]; simpl; [reflexivity|].
  rewrite IH. f_equal.
  unfold join_block. specialize (H a).
  assert (Hf : find (on a) r = hd_error (filter (on a) r)).
  { clear. induction r as [|b r IH]; simpl; [reflexivity|].
    destruct (on a b); [reflexivity|assumption]. }
  rewrite Hf. destruct (filter (on a) r) as [|b [|c m]]; simpl in *;
    [reflexivity|reflexivity|lia].
Qed.
End JoinFacts.

(** A unique key leaves at most one match. *)
Lemma unique_key_matches {B K : Type} (key : B -> K) (p : B -> bool) (k : K) (r : list B) :
  NoDup (map key r) ->
  (forall b, p b = true -> key b = k) ->
  (List.length (filter p r) <= 1)%nat.
Proof.
  intros Hnd Hp. induction r as [|b r IH]; simpl; [lia|].
  inversion Hnd as [|? ? Hnotin Hnd']; subst.
  destruct (p b) eqn:E; [|now apply IH].
  assert (Hnone : filter p r = []).
  { destruct (filter p r) as [|c m] eqn:F; [reflexivity|].
    exfalso. apply Hnotin.
    assert (Hc : In c (filter p r)) by (rewrite F; now left).
    apply filter_In in Hc. destruct Hc as [Hin Hpc].
    rewrite (Hp b E), <- (Hp c Hpc). now apply in_map. }
  rewrite Hnone. simpl. lia.
Qed.

(** ** GROUP BY *)

Section GroupFacts.
Context {A K : Type}.
Variable eqb : K -> K -> bool.
Variable key : A -> K.
Hypothesis eqb_spec : forall a b, eqb a b = true <-> a = b.

Lemma add_to_groups_fresh (a : A) (gs : list (K * list A)) :
  ~ In (key a) (map fst gs) ->
  add_to_groups eqb key a gs = (gs ++ [(key a, [a])])%list.
Proof.
  induction gs as [|[k g] gs IH]; simpl; intros Hn; [reflexivity|].
  destruct (eqb (key a) k) eqn:E.
  - apply eqb_spec in E. exfalso. apply Hn. now left.
  - rewrite IH; [reflexivity|]. intros Hin. apply Hn. now right.
Qed.

Lemma add_to_groups_last (a : A) (gs : list (K * list A)) (g : list A) :
  ~ In (key a) (map fst gs) ->
  add_to_groups eqb key a (gs ++ [(key a, g)])
  = (gs ++ [(key a, (g ++ [a])%list)])%list.
Proof.
  induction gs as [|[k' g'] gs IH]; simpl; intros Hn.
  - assert (E : eqb (key a) (key a) = true) by now apply eqb_spec.
    now rewrite E.
  - destruct (eqb (key a) k') eqn:E.
    + apply eqb_spec in E. exfalso. apply Hn. now left.
    + rewrite IH; [reflexivity|]. intros Hin. apply Hn. now right.
Qed.

Lemma fold_groups_block (k : K) (b g : list A) (gs : list (K * list A)) :
  ~ In k (map fst gs) ->
  (forall a, In a b -> key a = k) ->
  fold_left (fun gs a => add_to_groups eqb key a gs) b (gs ++ [(k, g)])%list
  = (gs ++ [(k, (g ++ b)%list)])%list.
Proof.
  revert g. induction b as [|a b IH]; simpl; intros g Hn Hk.
  - now rewrite app_nil_r.
  - assert (Ha : key a = k) by (apply Hk; now left).
    rewrite <- Ha at 1 2. rewrite add_to_groups_last by now rewrite Ha.
    rewrite Ha, IH by auto. now rewrite <- app_assoc.
Qed.

Section Blocks.
Context {S : Type}.
Variable k : S -> K.
Variable block : S -> list A.
Hypothesis block_nonempty : forall s, block s <> [].
Hypothesis block_key : forall s a, In a (block s) -> key a = k s.

Lemma fold_groups_blocks (ss : list S) (gs : list (K * list A)) :
  NoDup (map fst gs ++ map k ss) ->
  fold_left (fun gs a => add_to_groups eqb key a gs) (flat_map block ss) gs
  = (gs ++ map (fun s => (k s, block s)) ss)%list.
Proof.
  revert gs. induction ss as [|s ss IH]; simpl; intros gs Hnd.
  - now rewrite app_nil_r.
  - rewrite fold_left_app.
    assert (Hfresh : ~ In (k s) (map fst gs)).
    { intros Hin. apply NoDup_remove_2 in Hnd. apply Hnd.
      apply in_or_app. now left. }
    destruct (block s) as [|a b] eqn:Eb; [now apply block_nonempty in Eb|].
    assert (Hall : forall x, In x (a :: b) -> key x = k s).
    { intros x Hx. apply block_key. now rewrite Eb. }
    simpl fold_left at 2.
    rewrite add_to_groups_fresh by (rewrite (Hall a (or_introl eq_refl)); exact Hfresh).
    rewrite (Hall a (or_introl eq_refl)).
    rewrite fold_groups_block;
      [|exact Hfresh|intros x Hx; apply Hall; now right].
    simpl app at 2. rewrite IH.
    + now rewrite <- app_assoc.
    + rewrite map_app. simpl. rewrite <- app_assoc. exact Hnd.
Qed.

(** Grouping a list made of one block per key gives back the blocks. *)
Lemma group_by_blocks (ss : list S) :
  NoDup (map k ss) ->
  group_by eqb key (flat_map block ss) = map block ss.
Proof.
  intros Hnd. unfold group_by.
  rewrite fold_groups_blocks by exact Hnd.
  simpl. rewrite map_map. reflexivity.
Qed.
End Blocks.
End GroupFacts.

(** ** The list routes *)

Lemma NoDup_map_filter {A K : Type} (key : A -> K) (p : A -> bool) (l : list A) :
  NoDup (map key l) -> NoDup (map key (filter p l)).
Proof.
  induction l as [|a l IH]; simpl; intros Hnd; [constructor|].
  inversion Hnd as [|? ? Hn Hnd']; subst.
  destruct (p a); simpl; [|now apply IH].
  constructor; [|now apply IH].
  intros Hin. apply Hn. apply in_map_iff in Hin. destruct Hin as (x & Hx & Hin).
  apply filter_In in Hin. rewrite <- Hx. apply in_map. tauto.
Qed.

Lemma where_NoDup {C R K : Type} (col : C -> R -> option string) (key : R -> K)
    (w : option (cond C)) (rows : list R) :
  NoDup (map key rows) -> NoDup (map key (where_ col w rows)).
Proof.
  destruct w as [e|]; simpl; [apply NoDup_map_filter|trivial].
Qed.

Lemma descending_map {A : Type} (key : A -> Z) (l : list A) :
  descending key l -> descending (fun t => t) (map key l).
Proof.
  unfold descending. induction l as [|a l IH]; simpl; intros Hs; [constructor|].
  inversion Hs as [|? ? Hl Ha]; subst. constructor; [now apply IH|].
  rewrite Forall_forall in *. intros t Ht.
  apply in_map_iff in Ht. destruct Ht as (x & <- & Hx). now apply Ha.
Qed.

Lemma limit_offset_map {A B : Type} (f : A -> B) (l o : nat) (rows : list A) :
  limit_offset l o (map f rows) = map f (limit_offset l o rows).
Proof. unfold limit_offset. now rewrite skipn_map, firstn_map. Qed.


Lemma page_rows_map {A B : Type} (f : A -> B) (p : paging) (rows : list A) :
  page_rows p (map f rows) = option_map (map f) (page_rows p rows).
Proof.
  unfold page_rows.
  destruct (as_count (limitPerPage p)), (as_count (offset p)); simpl;
    try reflexivity.
  now rewrite limit_offset_map.
Qed.

(** Every list handler answers with the page of its ordered rows and
    the result of its count query. *)
Lemma list_endpoint_shape (db : database) (e : endpoint) (q : query) :
  list_endpoint db e q =
  Handled (option_map
             (fun data => list_response data (list_paging q) (list_total db e q))
             (page_rows (list_paging q) (list_all db e q))).
Proof.
  destruct e; unfold list_endpoint, list_all, list_total, list_paging; simpl; f_equal;
    rewrite page_rows_map;
    unfold users_list, users_page, subjects_list, subjects_page,
      classes_list, classes_page, departments_list, departments_page;
    simpl; destruct (page_rows _ _); reflexivity.
Qed.

(** With integral page and limit the page is the slice
    [(P - 1) * L, P * L) of the rows. *)
Lemma page_rows_integral {A : Type} (page limit : qparam) (rows : list A) (P L : Z) :
  let p := paging_of page limit in
  to_Z (currentPage p) = Some P ->
  to_Z (limitPerPage p) = Some L ->
  1 <= P /\ 1 <= L /\
  to_Z (offset p) = Some ((P - 1) * L) /\
  page_rows p rows = Some (limit_offset (Z.to_nat L) (Z.to_nat ((P - 1) * L)) rows).
Proof.
  intros p HP HL.
  assert (P1 : 1 <= P) by (eapply to_Z_ge1; exact HP).
  assert (L1 : 1 <= L) by (eapply to_Z_ge1; exact HL).
  assert (Ho : to_Z (offset p) = Some ((P - 1) * L)) by (now apply to_Z_offset).
  repeat split; try assumption.
  unfold page_rows.
  rewrite (as_count_intro _ _ HL) by lia.
  rewrite (as_count_intro _ _ Ho) by nia.
  reflexivity.
Qed.

(** *** The departments list: grouping undoes the fan-out of the join *)

Lemma departments_data_blocks (db : database) (q : departments_query) :
  departments_data_relation db q =
  flat_map (join_block (fun d s => dept_id d =? subj_departmentId s) (subjects db))
    (departments_count_relation db q).
Proof.
  unfold departments_data_relation, departments_count_relation.
  rewrite left_join_blocks.
  unfold departments_where, departments_filterConditions, whereClause.
  destruct (qtruthy (dq_search q)); [|reflexivity].
  unfold where_. rewrite <- filter_join_blocks.
  apply filter_ext. intros [d os]. reflexivity.
Qed.

Lemma grouped_blocks {A B R : Type} (on : A -> B -> bool) (r : list B)
    (out : A -> list (A * option B) -> R) (l : list A) :
  flat_map (fun g => match g with [] => [] | x :: _ => [out (fst x) g] end)
    (map (join_block on r) l)
  = map (fun a => out a (join_block on r a)) l.
Proof.
  induction l as [|a l IH]; simpl; [reflexivity|].
  rewrite IH. destruct (join_block_head on r a) as (o & rest & ->). reflexivity.
Qed.

Lemma departments_grouped_rows (db : database) (q : departments_query) :
  NoDup (map dept_id (departments db)) ->
  departments_grouped db q =
  map (fun d => (d, count_some (map snd
         (join_block (fun d s => dept_id d =? subj_departmentId s) (subjects db) d))))
    (departments_count_relation db q).
Proof.
  intros Hpk. unfold departments_grouped. rewrite departments_data_blocks.
  rewrite (group_by_blocks Z.eqb (fun r : department * option subject => dept_id (fst r))
             Z.eqb_eq dept_id).
  - apply (grouped_blocks _ _ (fun d g => (d, count_some (map snd g)))).
  - apply join_block_nonempty.
  - intros d x Hx. now rewrite (join_block_fst _ _ _ _ Hx).
  - unfold departments_count_relation. now apply where_NoDup.
Qed.

(** The grouped relation has one row per department that passes the
    filter, the very rows the count query counts. *)
Lemma departments_grouped_count (db : database) (q : departments_query) :
  NoDup (map dept_id (departments db)) ->
  map fst (departments_grouped db q) = departments_count_relation db q.
Proof.
  intros Hpk. rewrite departments_grouped_rows by assumption.
  rewrite map_map. simpl. apply map_id.
Qed.


Ltac solve_NoDup :=
  repeat (constructor; [simpl; intuition (try discriminate; try lia)|]);
  try constructor.

(** ** Counted pagination *)



(** The specification's example: two subjects, [page=2&limit=1]. *)
Example two_subjects_second_page :
  list_endpoint Sample.one_department Subjects [("page", QOne "2"); ("limit", QOne "1")] =
  Handled (Some (list_response
    [subject_row_json (Sample.algorithms, Some Sample.cs)]
    (mkPaging (of_Z 2) (of_Z 1) (of_Z 1)) 2)) /\
  totalPages 2 (mkPaging (of_Z 2) (of_Z 1) (of_Z 1)) = of_Z 2.
Proof. split; vm_compute; reflexivity. Qed.

(** ** Coercion and clamping of [page] and [limit] *)




(** Inputs at or below zero clamp to the first page of one row. *)
Example clamp_nonpositive :
  paging_of (QOne "-3") (QOne "0") = mkPaging (of_Z 1) (of_Z 1) (Num ((1 + - 1) * 1)).
Proof. reflexivity. Qed.

(** ** The count query and the data query *)




(** ** The filter builder *)

(** C8: for every list endpoint, a request without filter parameters and
    a request with an empty [search] build the same WHERE clause, namely
    none, so they get the same total (the number of rows of the
    unrestricted relation) and indeed the same answer. *)
Theorem C8_empty_search_is_no_filter
    (db : database) (e : endpoint) (page limit : qparam) :
  let none := paged page limit [] in
  let empty := paged page limit [("search", QOne "")] in
  list_where e none = None /\
  list_where e empty = None /\
  list_total db e empty = list_total db e none /\
  list_total db e none = list_unfiltered db e /\
  list_endpoint db e empty = list_endpoint db e none.
Proof.
  destruct e; repeat split; reflexivity.
Qed.



(** A percent sign or an underscore of the input acts as a wildcard. *)
Example wildcards_reach_ilike :
  ilike (contains_pattern (QOne "a_c")) "abc" = true /\
  ilike (contains_pattern (QOne "a%z")) "a to z" = true /\
  ilike (contains_pattern (QOne "%")) "" = true /\
  ilike (contains_pattern (QOne "a\_c")) "abc" = false.
Proof. repeat split; reflexivity. Qed.

(** An underscore search finds every user with a non-empty name. *)
Example underscore_search_matches_all :
  list_total Sample.db Users [("search", QOne "_")] = 3%nat.
Proof. reflexivity. Qed.

(** ** Ordering of the pages *)

Lemma page_rows_slice {A : Type} (p : paging) (rows data : list A) :
  page_rows p rows = Some data ->
  exists l o, data = limit_offset l o rows.
Proof.
  unfold page_rows.
  destruct (as_count (limitPerPage p)) as [l|]; [|discriminate].
  destruct (as_count (offset p)) as [o|]; [|discriminate].
  intros [= <-]. eauto.
Qed.

(** The rows of every list route carry their [createdAt], newest first
    before LIMIT and OFFSET. *)
Lemma list_all_descending (db : database) (e : endpoint) (q : query) :
  exists (R : Type) (enc : R -> json) (key : R -> Z) (rows : list R),
    list_all db e q = map enc (order_by_desc key rows) /\
    forall r, json_get "createdAt" (enc r) = Some (JZ (key r)).
Proof.
  destruct e; simpl.
  - exists user, user_json, user_createdAt. eexists. split; [reflexivity|].
    intros r. reflexivity.
  - exists subject_row, subject_row_json, (fun r => subj_createdAt (fst r)).
    eexists. split; [reflexivity|]. intros r. reflexivity.
  - exists class_row, class_row_json, (fun r => cls_createdAt (cr_class r)).
    eexists. split; [reflexivity|]. intros r. reflexivity.
  - exists department_row, department_row_json, (fun r => dept_createdAt (fst r)).
    eexists. split; [reflexivity|]. intros r. reflexivity.
Qed.

(** C10: every list endpoint (users, subjects, departments, classes)
    returns its page ordered by the primary entity's [createdAt],
    newest first. *)
Theorem C10_newest_first
    (db : database) (e : endpoint) (q : query) (data : list json)
    (p : paging) (total : nat) :
  list_endpoint db e q = Handled (Some (list_response data p total)) ->
  exists stamps : list timestamp,
    map (json_get "createdAt") data = map (fun t => Some (JZ t)) stamps /\
    descending (fun t => t) stamps.
Proof.
  rewrite list_endpoint_shape. intros H.
  destruct (page_rows (list_paging q) (list_all db e q)) as [page|] eqn:Hp;
    [|discriminate].
  simpl in H. injection H as Hdata _. subst page.
  destruct (page_rows_slice _ _ _ Hp) as (l & o & ->).
  destruct (list_all_descending db e q) as (R & enc & key & rows & -> & Hkey).
  rewrite limit_offset_map.
  exists (map key (limit_offset l o (order_by_desc key rows))). split.
  - rewrite !map_map. apply map_ext. intros r. apply Hkey.
  - apply descending_map, descending_page.
Qed.

Lemma C10_newest_first_witness :
  exists stamps : list timestamp,
    map (json_get "createdAt")
      (map class_row_json
         [mkClassRow Sample.db_a (Some Sample.databases) (Some Sample.tess);
          mkClassRow Sample.algo_b (Some Sample.algorithms) (Some Sample.tess)])
    = map (fun t => Some (JZ t)) stamps /\
    descending (fun t => t) stamps.
Proof.
  apply (C10_newest_first Sample.db Classes [("limit", QOne "2")] _
           (list_paging [("limit", QOne "2")]) 3).
  reflexivity.
Defined.

(** ** The user detail route *)

(** C1, as stated, fails in its second half: the answer for a student
    does carry a top-level [classes] key, the distinct classes of the
    student's enrollments. *)
Lemma C1_counterexample :
  (find_user Sample.db "s1" = Some Sample.sam /\
   user_role Sample.sam = Student /\
   exists data : json,
     users_detail Sample.db "s1" = mkResponse 200 (JObj [("data", data)]) /\
     json_keys data = ["user"; "enrollments"; "classes"; "subjects"; "totals"] /\
     json_has_key "classes" data = true) /\
  ~ (forall (db : database) (id : string) (u : user) (data : json),
       find_user db id = Some u ->
       user_role u = Student ->
       json_get "data" (body (users_detail db id)) = Some data ->
       json_has_key "classes" data = false).
Proof.
  split.
  - split; [reflexivity|]. split; [reflexivity|].
    eexists. split; [reflexivity|]. split; reflexivity.
  - intros H.
    specialize (H Sample.db "s1" Sample.sam _ eq_refl eq_refl eq_refl).
    discriminate.
Qed.

(** C1, amended: the data object of a user detail answer has the keys
    [user, classes, subjects, departments, totals] for a teacher, hence
    no [enrollments] key, and the keys
    [user, enrollments, classes, subjects, totals] for a student, hence
    an [enrollments] key and no [departments] key, while [classes] is
    present in both (the joined class rows for a teacher, the distinct
    classes for a student); for any other role it has the key [user]
    alone. *)
Theorem C1_role_shapes (db : database) (id : string) (u : user) :
  find_user db id = Some u ->
  exists data : json,
    users_detail db id = mkResponse 200 (JObj [("data", data)]) /\
    match user_role u with
    | Teacher =>
        json_keys data = ["user"; "classes"; "subjects"; "departments"; "totals"] /\
        json_has_key "enrollments" data = false /\
        json_path ["classes"] data = Some (JArr (map taught_row_json (taught_classes db id)))
    | Student =>
        json_keys data = ["user"; "enrollments"; "classes"; "subjects"; "totals"] /\
        json_has_key "enrollments" data = true /\
        json_has_key "departments" data = false /\
        json_has_key "classes" data = true /\
        json_path ["classes"] data =
          Some (JArr (map class_json
                  (JsMap.values (flatten cls_id er_class (student_enrollments db id)))))
    | Admin => json_keys data = ["user"]
    end.
Proof.
  intros Hu. unfold users_detail. rewrite Hu.
  destruct (user_role u); eexists; (split; [reflexivity|]).
  - repeat split. simpl. do 3 f_equal.
    unfold flatten2, flatten.
    set (rows := student_enrollments db id).
    generalize (@JsMap.empty subject). generalize (@JsMap.empty class).
    induction rows as [|r rows IH]; intros mc ms; simpl; [reflexivity|].
    apply IH.
  - repeat split.
  - reflexivity.
Qed.

Lemma C1_role_shapes_witness :
  exists data : json,
    users_detail Sample.db "t1" = mkResponse 200 (JObj [("data", data)]) /\
    json_keys data = ["user"; "classes"; "subjects"; "departments"; "totals"] /\
    json_has_key "enrollments" data = false /\
    json_path ["classes"] data
      = Some (JArr (map taught_row_json (taught_classes Sample.db "t1"))).
Proof.
  apply (C1_role_shapes Sample.db "t1" Sample.tess). reflexivity.
Defined.

(** ** Validation and existence checks of the detail routes *)

Lemma find_existsb {A : Type} (p : A -> bool) (l : list A) :
  match hd_error (filter p l) with
  | Some a => In a l /\ p a = true /\ existsb p l = true
  | None => existsb p l = false
  end.
Proof.
  induction l as [|a l IH]; simpl; [reflexivity|].
  destruct (p a) eqn:E; simpl.
  - auto.
  - destruct (hd_error (filter p l)); intuition.
Qed.





Example subject_detail_statuses :
  option_map status (Some (subjects_detail Sample.db "abc")) = Some 400%nat /\
  status (subjects_detail Sample.db "99") = 404%nat /\
  status (subjects_detail Sample.db "2") = 200%nat /\
  status (departments_detail Sample.db "1x") = 400%nat /\
  status (departments_detail Sample.db "7") = 404%nat /\
  status (users_detail Sample.db "nobody") = 404%nat.
Proof. repeat split; reflexivity. Qed.

(** ** The department detail route *)

Lemma id_is_eqb (z d : Z) (n : jsnum) :
  id_is d n = true -> id_is z n = (z =? d).
Proof.
  unfold id_is, JsNum.eqb, of_Z. destruct n as [| | |q]; try discriminate.
  intros Hd. apply Qeq_bool_iff in Hd.
  destruct (z =? d) eqn:E.
  - apply Z.eqb_eq in E. subst z. now apply Qeq_bool_iff.
  - apply Z.eqb_neq in E.
    destruct (Qeq_bool (inject_Z z) q) eqn:F; [|reflexivity].
    apply Qeq_bool_iff in F. exfalso. apply E.
    apply inject_Z_injective. now rewrite F, Hd.
Qed.

Lemma find_functional {B K : Type} (key : B -> K) (p g : B -> bool) (k : K) (l : list B) :
  NoDup (map key l) ->
  (forall b, p b = true -> key b = k) ->
  match find p l with Some b => g b | None => false end
  = existsb (fun b => p b && g b) l.
Proof.
  intros Hnd Hp. induction l as [|a l IH]; simpl; [reflexivity|].
  inversion Hnd as [|? ? Hn Hnd']; subst.
  destruct (p a) eqn:E; simpl; [|now apply IH].
  assert (Hrest : existsb (fun b => p b && g b) l = false).
  { apply not_true_is_false. intros Hex. apply existsb_exists in Hex.
    destruct Hex as (b & Hb & Hpb). apply andb_true_iff in Hpb.
    apply Hn. rewrite (Hp a E), <- (Hp b (proj1 Hpb)). now apply in_map. }
  rewrite Hrest. now rewrite orb_false_r.
Qed.

(** With unique subject and user ids the double join keeps one row per
    class. *)
Lemma classes_join_rows (db : database) :
  NoDup (map subj_id (subjects db)) ->
  NoDup (map user_id (users db)) ->
  classes_join_subjects_user db =
  map (fun c => mkClassRow c
         (find (fun s => cls_subjectId c =? subj_id s) (subjects db))
         (find (fun u => String.eqb (cls_teacherId c) (user_id u)) (users db)))
    (classes db).
Proof.
  intros Hs Hu. unfold classes_join_subjects_user.
  rewrite (left_join_functional (fun c s => cls_subjectId c =? subj_id s)).
  - rewrite left_join_functional.
    + rewrite !map_map. reflexivity.
    + intros cs. apply (unique_key_matches user_id _ (cls_teacherId (fst cs))); [exact Hu|].
      intros u E. apply String.eqb_eq in E. now symmetry.
  - intros c. apply (unique_key_matches subj_id _ (cls_subjectId c)); [exact Hs|].
    intros s E. apply Z.eqb_eq in E. now symmetry.
Qed.

Lemma filter_map_length {A B : Type} (f : A -> B) (p : B -> bool) (l : list A) :
  List.length (filter p (map f l)) = List.length (filter (fun a => p (f a)) l).
Proof.
  induction l as [|a l IH]; simpl; [reflexivity|].
  destruct (p (f a)); simpl; now rewrite IH.
Qed.

Lemma existsb_filter {A : Type} (p g : A -> bool) (l : list A) :
  existsb p (filter g l) = existsb (fun a => p a && g a) l.
Proof.
  induction l as [|a l IH]; simpl; [reflexivity|].
  destruct (g a); simpl; rewrite IH; [now rewrite andb_true_r|now rewrite andb_false_r].
Qed.

Lemma existsb_ext {A : Type} (p g : A -> bool) (l : list A) :
  (forall a, p a = g a) -> existsb p l = existsb g l.
Proof.
  intros H. induction l as [|a l IH]; simpl; [reflexivity|]. now rewrite H, IH.
Qed.

Lemma department_classes_length (db : database) (d : department) (n : jsnum) :
  NoDup (map subj_id (subjects db)) ->
  NoDup (map user_id (users db)) ->
  id_is (dept_id d) n = true ->
  List.length (department_classes db n) = List.length (classes_under db d).
Proof.
  intros Hs Hu Hd. unfold department_classes, classes_under, subjects_of.
  rewrite order_by_desc_length, classes_join_rows by assumption.
  rewrite filter_map_length. f_equal. apply filter_ext. intros c. simpl.
  rewrite existsb_filter.
  rewrite (find_functional subj_id _
             (fun s => id_is (subj_departmentId s) n) (cls_subjectId c)); [|exact Hs|].
  - apply existsb_ext. intros s. now rewrite (id_is_eqb _ _ _ Hd).
  - intros s E. apply Z.eqb_eq in E. now symmetry.
Qed.

Lemma department_subjects_length (db : database) (d : department) (n : jsnum) :
  NoDup (map subj_id (subjects db)) ->
  id_is (dept_id d) n = true ->
  List.length (department_subjects db n) = List.length (subjects_of db d).
Proof.
  intros Hs Hd. unfold department_subjects, subjects_of.
  rewrite order_by_desc_length, left_join_blocks.
  rewrite (filter_join_blocks _ (fun s => id_is (subj_departmentId s) n)).
  rewrite (group_by_blocks Z.eqb (fun r : subject * option class => subj_id (fst r))
             Z.eqb_eq subj_id).
  - rewrite (grouped_blocks _ _ (fun s g => (s, count_some (map snd g)))).
    rewrite length_map. f_equal. apply filter_ext. intros s.
    now apply id_is_eqb.
  - apply join_block_nonempty.
  - intros s x Hx. now rewrite (join_block_fst _ _ _ _ Hx).
  - now apply NoDup_map_filter.
Qed.

(** C5: for an existing department with [S] subjects and [C] classes
    under those subjects (ids being primary keys), the detail answer is
    a 200 whose [subjects] array has length [S] and whose [classes]
    array has length [C], and [totals.subjects] and [totals.classes]
    are those lengths: the fan-out of the joins inflates neither. *)
Theorem C5_department_detail_counts (db : database) (id : string) (d : department) :
  primary_keys db ->
  isFinite (string_to_number id) = true ->
  find_department db (string_to_number id) = Some d ->
  let r := departments_detail db id in
  let S := List.length (subjects_of db d) in
  let C := List.length (classes_under db d) in
  status r = 200%nat /\
  json_path ["data"; "department"] (body r) = Some (department_json d) /\
  json_path_length ["data"; "subjects"] (body r) = Some S /\
  json_path_length ["data"; "classes"] (body r) = Some C /\
  json_path ["data"; "totals"; "subjects"] (body r) = Some (JNat S) /\
  json_path ["data"; "totals"; "classes"] (body r) = Some (JNat C).
Proof.
  intros [Hu _ Hs _] Hfin Hfind r S C.
  assert (Hd : id_is (dept_id d) (string_to_number id) = true).
  { unfold find_department in Hfind.
    assert (H := find_existsb (fun d => id_is (dept_id d) (string_to_number id))
                   (departments db)).
    rewrite Hfind in H. tauto. }
  unfold r, departments_detail. rewrite Hfin, Hfind. simpl.
  unfold json_path_length. simpl. rewrite !length_map.
  rewrite (department_subjects_length db d _ Hs Hd).
  rewrite (department_classes_length db d _ Hs Hu Hd).
  repeat split.
Qed.

Lemma C5_department_detail_counts_witness :
  let r := departments_detail Sample.db "1" in
  let S := List.length (subjects_of Sample.db Sample.cs) in
  let C := List.length (classes_under Sample.db Sample.cs) in
  status r = 200%nat /\
  json_path ["data"; "department"] (body r) = Some (department_json Sample.cs) /\
  json_path_length ["data"; "subjects"] (body r) = Some S /\
  json_path_length ["data"; "classes"] (body r) = Some C /\
  json_path ["data"; "totals"; "subjects"] (body r) = Some (JNat S) /\
  json_path ["data"; "totals"; "classes"] (body r) = Some (JNat C).
Proof.
  apply (C5_department_detail_counts Sample.db "1" Sample.cs).
  - constructor; simpl; solve_NoDup.
  - reflexivity.
  - reflexivity.
Defined.

(** Two subjects and three classes in the sample department. *)
Example sample_department_counts :
  List.length (subjects_of Sample.db Sample.cs) = 2%nat /\
  List.length (classes_under Sample.db Sample.cs) = 3%nat /\
  json_path_length ["data"; "subjects"] (body (departments_detail Sample.db "1")) = Some 2%nat /\
  json_path_length ["data"; "classes"] (body (departments_detail Sample.db "1")) = Some 3%nat.
Proof. repeat split; reflexivity. Qed.

(** ** The join-result flattener *)

Section FlattenFacts.
Context {R A : Type}.
Variable id : A -> Z.
Variable child : R -> option A.

Lemma set_keys (k : Z) (v : A) (m : JsMap.t A) :
  JsMap.keys (JsMap.set k v m) = add_key Z.eqb k (JsMap.keys m).
Proof.
  induction m as [|[k' v'] m IH]; simpl; [reflexivity|].
  destruct (k =? k'); simpl; [reflexivity|]. now rewrite IH.
Qed.

Lemma set_In (k k0 : Z) (v v0 : A) (m : JsMap.t A) :
  In (k, v) (JsMap.set k0 v0 m) -> (k = k0 /\ v = v0) \/ In (k, v) m.
Proof.
  induction m as [|[k' v'] m IH]; simpl.
  - intros [[= <- <-]|[]]. now left.
  - destruct (k0 =? k') eqn:E; simpl.
    + apply Z.eqb_eq in E. subst k'.
      intros [[= <- <-]|H]; [now left|right; now right].
    + intros [H|H]; [right; now left|].
      destruct (IH H) as [?|?]; [now left|right; now right].
Qed.

(** The loop over the rows is a run of [set] over the kept children. *)
Lemma flatten_fold (rows : list R) (m : JsMap.t A) :
  fold_left (fun m row => collect id (child row) m) rows m
  = fold_left (fun m a => JsMap.set (id a) a m) (kept id child rows) m.
Proof.
  unfold kept. revert m. induction rows as [|r rows IH]; intros m; simpl;
    [reflexivity|].
  rewrite IH. unfold collect. destruct (child r) as [a|]; simpl; [|reflexivity].
  destruct (id_truthy (id a)); reflexivity.
Qed.

Lemma fold_set_keys (l : list A) (m : JsMap.t A) :
  JsMap.keys (fold_left (fun m a => JsMap.set (id a) a m) l m)
  = fold_left (fun seen k => add_key Z.eqb k seen) (map id l) (JsMap.keys m).
Proof.
  revert m. induction l as [|a l IH]; intros m; simpl; [reflexivity|].
  now rewrite IH, set_keys.
Qed.

Lemma fold_set_In (l : list A) (m : JsMap.t A) (k : Z) (v : A) :
  In (k, v) (fold_left (fun m a => JsMap.set (id a) a m) l m) ->
  (In v l /\ k = id v) \/ In (k, v) m.
Proof.
  revert m. induction l as [|a l IH]; intros m; simpl; [now right|].
  intros H. destruct (IH _ H) as [[Hin Hk]|Hin]; [left; split; [now right|exact Hk]|].
  destruct (set_In _ _ _ _ _ Hin) as [[-> ->]|Hm]; [left|now right].
  split; [now left|reflexivity].
Qed.

(** The map holds one entry per distinct kept key, in order of first
    appearance, and its size is their number. *)
Lemma flatten_keys (rows : list R) :
  JsMap.keys (flatten id child rows) = distinct_keys Z.eqb (map id (kept id child rows)) /\
  JsMap.size (flatten id child rows)
    = List.length (distinct_keys Z.eqb (map id (kept id child rows))).
Proof.
  unfold flatten. rewrite flatten_fold.
  assert (H := fold_set_keys (kept id child rows) JsMap.empty).
  split; [exact H|].
  transitivity (List.length (JsMap.keys
    (fold_left (fun m a => JsMap.set (id a) a m) (kept id child rows) JsMap.empty))).
  - unfold JsMap.size, JsMap.keys. symmetry. apply length_map.
  - now rewrite H.
Qed.

(** Every entry is a kept child under its own id, never one with id 0. *)
Lemma flatten_entries (rows : list R) (k : Z) (v : A) :
  In (k, v) (flatten id child rows) ->
  In v (children child rows) /\ k = id v /\ id v <> 0.
Proof.
  unfold flatten. rewrite flatten_fold. intros H.
  destruct (fold_set_In _ _ _ _ H) as [[Hin Hk]|[]].
  unfold kept in Hin. apply filter_In in Hin. destruct Hin as [Hin Ht].
  repeat split; try assumption.
  unfold id_truthy in Ht. apply negb_true_iff, Z.eqb_neq in Ht. exact Ht.
Qed.

End FlattenFacts.

(** Two maps filled in one loop are each what their own loop gives. *)
Lemma flatten2_independent {R A B : Type} (idA : A -> Z) (childA : R -> option A)
    (idB : B -> Z) (childB : R -> option B) (rows : list R) :
  flatten2 idA childA idB childB rows
  = (flatten idA childA rows, flatten idB childB rows).
Proof.
  unfold flatten2, flatten.
  generalize (@JsMap.empty A). generalize (@JsMap.empty B).
  induction rows as [|r rows IH]; intros mb ma; simpl; [reflexivity|].
  apply IH.
Qed.

Lemma add_key_In (x k : Z) (seen : list Z) :
  In x (add_key Z.eqb k seen) <-> x = k \/ In x seen.
Proof.
  induction seen as [|k' r IH]; simpl.
  - intuition.
  - destruct (k =? k') eqn:E; simpl.
    + apply Z.eqb_eq in E. subst k'. intuition.
    + rewrite IH. intuition.
Qed.

Lemma add_key_NoDup (k : Z) (seen : list Z) :
  NoDup seen -> NoDup (add_key Z.eqb k seen).
Proof.
  induction seen as [|k' r IH]; simpl; intros Hnd.
  - constructor; [intros []|constructor].
  - inversion Hnd as [|? ? Hn Hr]; subst.
    destruct (k =? k') eqn:E; [exact Hnd|].
    apply Z.eqb_neq in E. constructor; [|now apply IH].
    rewrite add_key_In. intros [->|Hin]; [now apply E|contradiction].
Qed.

Lemma fold_add_key (l seen : list Z) :
  let r := fold_left (fun seen k => add_key Z.eqb k seen) l seen in
  (NoDup seen -> NoDup r) /\ (forall x, In x r <-> In x l \/ In x seen).
Proof.
  revert seen. induction l as [|k l IH]; intros seen; simpl.
  - split; [trivial|]. intros x. intuition.
  - destruct (IH (add_key Z.eqb k seen)) as [Hnd Hin]. split.
    + intros H. now apply Hnd, add_key_NoDup.
    + intros x. rewrite Hin, add_key_In. intuition.
Qed.

Lemma distinct_keys_NoDup (l : list Z) : NoDup (distinct_keys Z.eqb l).
Proof. apply (fold_add_key l []). constructor. Qed.

Lemma distinct_keys_In (l : list Z) (x : Z) : In x (distinct_keys Z.eqb l) <-> In x l.
Proof.
  unfold distinct_keys. rewrite (proj2 (fold_add_key l [])). simpl. intuition.
Qed.

Section MapFacts.
Context {A : Type}.
Variable id : A -> Z.




End MapFacts.



(** The detail handlers answer with the values and sizes of these maps. *)
Lemma teacher_data_maps (db : database) (u : user) (id : string) :
  let rows := taught_classes db id in
  json_path ["subjects"] (teacher_data db u id)
    = Some (JArr (map subject_json (JsMap.values (flatten subj_id tr_subject rows)))) /\
  json_path ["departments"] (teacher_data db u id)
    = Some (JArr (map department_json (JsMap.values (flatten dept_id tr_department rows)))) /\
  json_path ["totals"; "subjects"] (teacher_data db u id)
    = Some (JNat (JsMap.size (flatten subj_id tr_subject rows))) /\
  json_path ["totals"; "departments"] (teacher_data db u id)
    = Some (JNat (JsMap.size (flatten dept_id tr_department rows))).
Proof.
  intros rows. unfold teacher_data. fold rows.
  rewrite flatten2_independent. repeat split.
Qed.

Lemma student_data_maps (db : database) (u : user) (id : string) :
  let rows := student_enrollments db id in
  json_path ["classes"] (student_data db u id)
    = Some (JArr (map class_json (JsMap.values (flatten cls_id er_class rows)))) /\
  json_path ["subjects"] (student_data db u id)
    = Some (JArr (map subject_json (JsMap.values (flatten subj_id er_subject rows)))) /\
  json_path ["totals"; "classes"] (student_data db u id)
    = Some (JNat (JsMap.size (flatten cls_id er_class rows))) /\
  json_path ["totals"; "subjects"] (student_data db u id)
    = Some (JNat (JsMap.size (flatten subj_id er_subject rows))).
Proof.
  intros rows. unfold student_data. fold rows.
  rewrite flatten2_independent. repeat split.
Qed.

(** The sample teacher's three classes share two subjects and one
    department. *)
Example sample_teacher_totals :
  json_path ["data"; "totals"] (body (users_detail Sample.db "t1")) =
  Some (JObj [("classes", JNat 3); ("subjects", JNat 2); ("departments", JNat 1)]) /\
  JsMap.keys (flatten subj_id tr_subject (taught_classes Sample.db "t1")) = [2; 1].
Proof. split; reflexivity. Qed.

(** * Further properties of the routes *)

(** ** Decimal numerals as numbers *)

Lemma ltrim_nonspace (l : list ascii) :
  match l with [] => True | c :: _ => is_space c = false end -> ltrim l = l.
Proof. destruct l as [|c r]; simpl; [reflexivity|]. now intros ->. Qed.

Lemma trim_nospace (l : list ascii) :
  Forall (fun c => is_space c = false) l -> trim l = l.
Proof.
  intros H. unfold trim.
  rewrite (ltrim_nonspace l) by (destruct H; auto).
  rewrite ltrim_nonspace; [apply rev_involutive|].
  apply Forall_rev in H. destruct H; auto.
Qed.

(** A string that, trimmed, starts with neither a sign nor a prefixed
    literal is read as an unsigned decimal literal. *)
Lemma string_to_number_unsigned (s : string) (c : ascii) (r : list ascii) :
  trim (list_ascii_of_string s) = c :: r ->
  c <> "+"%char -> c <> "-"%char ->
  parse_nondecimal (c :: r) = None ->
  string_to_number s =
  match parse_unsigned (c :: r) with Some x => x | None => NaN end.
Proof.
  intros Ht Hp Hm Hn. unfold string_to_number. rewrite Ht, Hn.
  destruct c as [[] [] [] [] [] [] [] []]; try reflexivity; congruence.
Qed.

Section DecimalFacts.
Import DecimalString.NilEmpty.

Lemma uint_chars_nospace (d : Decimal.uint) :
  Forall (fun c => is_space c = false) (list_ascii_of_string (string_of_uint d)).
Proof. induction d; simpl; constructor; auto. Qed.

Lemma digits_uint (d : Decimal.uint) (acc k : nat) :
  digits 10 (Z.of_nat acc) k (list_ascii_of_string (string_of_uint d))
  = (Z.of_nat (Nat.of_uint_acc d acc), (k + Decimal.nb_digits d)%nat, []).
Proof.
  revert acc k. induction d as [|d IH|d IH|d IH|d IH|d IH|d IH|d IH|d IH|d IH|d IH];
    intros acc k; simpl list_ascii_of_string;
    [simpl; now rewrite Nat.add_0_r|..];
    match goal with
    | |- digits 10 _ _ (?c :: ?r) = _ =>
        let n := constr:(Z.of_nat (nat_of_ascii c) - 48) in
        change (digits 10 (Z.of_nat acc) k (c :: r))
          with (digits 10 (Z.of_nat acc * 10 + n) (S k) r);
        replace (Z.of_nat acc * 10 + n)
          with (Z.of_nat (Z.to_nat n + 10 * acc)) by (simpl; lia)
    end;
    rewrite IH; simpl Nat.of_uint_acc; simpl Decimal.nb_digits;
    rewrite Nat.tail_mul_spec; simpl Z.to_nat;
    (apply f_equal2; [apply f_equal2; [do 2 apply f_equal|]; lia|reflexivity]).
Qed.

Lemma uint_nonnil (n : nat) : Nat.to_uint n <> Decimal.Nil.
Proof.
  destruct n as [|n]; [discriminate|].
  intros H. assert (E := DecimalNat.Unsigned.of_to (S n)). rewrite H in E.
  discriminate.
Qed.

Lemma Qred_integer (z : Z) : Qred (inject_Z z * pow10 (- Z.of_nat 0)) = inject_Z z.
Proof.
  rewrite (Qred_complete _ (inject_Z z)).
  - apply Qcanon.Qred_identity. simpl. apply Z.gcd_1_r.
  - simpl. unfold pow10. simpl. apply Qmult_1_r.
Qed.

Lemma parse_unsigned_uint (d : Decimal.uint) :
  d <> Decimal.Nil ->
  parse_unsigned (list_ascii_of_string (string_of_uint d))
  = Some (of_nat (Nat.of_uint d)).
Proof.
  intros Hd. unfold parse_unsigned.
  assert (Hinf : list_ascii_eqb (list_ascii_of_string (string_of_uint d)) infinity_lit
                 = false).
  { unfold list_ascii_eqb. rewrite string_of_list_ascii_of_string.
    destruct d; reflexivity. }
  rewrite Hinf. unfold parse_decimal.
  assert (Hdig := digits_uint d 0 0). change (Z.of_nat 0) with 0 in Hdig.
  rewrite Hdig. cbv beta iota zeta.
  assert (Hnb : ((0 + Decimal.nb_digits d + 0 =? 0)%nat) = false)
    by (destruct d; [contradiction|reflexivity..]).
  rewrite Hnb, Qred_integer. reflexivity.
Qed.

Lemma parse_nondecimal_uint (d : Decimal.uint) :
  parse_nondecimal (list_ascii_of_string (string_of_uint d)) = None.
Proof.
  destruct d as [|d|d|d|d|d|d|d|d|d|d]; try reflexivity.
  destruct d; reflexivity.
Qed.

(** The number read from the decimal numeral of [n] is [n]. *)
Lemma string_to_number_decimal (n : nat) : string_to_number (decimal n) = of_nat n.
Proof.
  unfold decimal. set (d := Nat.to_uint n).
  assert (Hd : d <> Decimal.Nil) by apply uint_nonnil.
  assert (Ht : trim (list_ascii_of_string (string_of_uint d))
               = list_ascii_of_string (string_of_uint d))
    by apply trim_nospace, uint_chars_nospace.
  assert (Hex : exists c r, list_ascii_of_string (string_of_uint d) = c :: r)
    by (destruct d; [contradiction|simpl; eauto..]).
  destruct Hex as (c & r & El).
  rewrite (string_to_number_unsigned (string_of_uint d) c r).
  - rewrite <- El, (parse_unsigned_uint d Hd). unfold d.
    now rewrite DecimalNat.Unsigned.of_to.
  - now rewrite Ht.
  - intros ->. destruct d; simpl in El; discriminate.
  - intros ->. destruct d; simpl in El; discriminate.
  - rewrite <- El. apply parse_nondecimal_uint.
Qed.
End DecimalFacts.

Lemma id_is_of_nat (z : Z) (n : nat) : id_is z (of_nat n) = (z =? Z.of_nat n).
Proof.
  unfold id_is, JsNum.eqb, of_nat, of_Z.
  destruct (z =? Z.of_nat n) eqn:E.
  - apply Z.eqb_eq in E. subst z. now apply Qeq_bool_iff.
  - apply Z.eqb_neq in E.
    destruct (Qeq_bool (inject_Z z) (inject_Z (Z.of_nat n))) eqn:F; [|reflexivity].
    exfalso. apply E. apply inject_Z_injective. now apply Qeq_bool_iff.
Qed.

(** ** Walking through the pages *)

Lemma list_all_paged (db : database) (e : endpoint) (page limit : qparam) (q : query) :
  list_all db e (paged page limit q) = list_all db e q /\
  list_total db e (paged page limit q) = list_total db e q.
Proof. destruct e; split; reflexivity. Qed.

Lemma to_Z_of_nat (n : nat) : to_Z (of_nat n) = Some (Z.of_nat n).
Proof. apply to_Z_intro. reflexivity. Qed.

(** A request for page [P] with [L] rows a page, both written in
    decimal, is answered 200 with the slice of the ordered rows that
    starts at [(P - 1) * L], a page or limit of 0 counting as 1. *)
Lemma page_query_answer (db : database) (e : endpoint) (q : query) (P L : nat) :
  list_endpoint db e (page_query P L q) =
  Handled (Some (list_response
    (limit_offset (Nat.max 1 L) ((Nat.max 1 P - 1) * Nat.max 1 L) (list_all db e q))
    (list_paging (page_query P L q)) (list_total db e q))).
Proof.
  rewrite list_endpoint_shape. unfold page_query.
  destruct (list_all_paged db e (QOne (decimal P)) (QOne (decimal L)) q) as [-> ->].
  change (list_paging (paged (QOne (decimal P)) (QOne (decimal L)) q))
    with (paging_of (QOne (decimal P)) (QOne (decimal L))).
  assert (HP : to_Z (currentPage (paging_of (QOne (decimal P)) (QOne (decimal L))))
               = Some (Z.max 1 (Z.of_nat P))).
  { unfold paging_of. simpl. rewrite string_to_number_decimal.
    apply to_Z_max1, to_Z_of_nat. }
  assert (HL : to_Z (limitPerPage (paging_of (QOne (decimal P)) (QOne (decimal L))))
               = Some (Z.max 1 (Z.of_nat L))).
  { unfold paging_of. simpl. rewrite string_to_number_decimal.
    apply to_Z_max1, to_Z_of_nat. }
  destruct (page_rows_integral _ _ (list_all db e q) _ _ HP HL) as (_ & _ & _ & Hrows).
  rewrite Hrows. simpl option_map.
  do 3 f_equal.
  replace (Z.to_nat (Z.max 1 (Z.of_nat L))) with (Nat.max 1 L) by lia.
  f_equal. nia.
Qed.



Lemma response_data_list (data : list json) (p : paging) (total : nat) :
  response_data (Handled (Some (list_response data p total))) = data.
Proof. reflexivity. Qed.





(** Without [page] and [limit] the answer is the first ten rows, as
    page 1 of limit 10. *)
Theorem default_page_is_first_ten (db : database) (e : endpoint) (q : query) :
  query_get "page" q = QAbsent ->
  query_get "limit" q = QAbsent ->
  response_data (list_endpoint db e q) = firstn 10 (list_all db e q) /\
  list_endpoint db e q = list_endpoint db e (page_query 1 10 q).
Proof.
  intros HP HL.
  assert (Hq : list_endpoint db e q =
               Handled (Some (list_response (firstn 10 (list_all db e q))
                                (list_paging q) (list_total db e q)))).
  { rewrite list_endpoint_shape. unfold list_paging. rewrite HP, HL. reflexivity. }
  split; [now rewrite Hq, response_data_list|].
  rewrite Hq, page_query_answer. unfold list_paging. rewrite HP, HL. reflexivity.
Qed.

Lemma default_page_is_first_ten_witness :
  response_data (list_endpoint Sample.db Subjects [("search", QOne "a")])
    = firstn 10 (list_all Sample.db Subjects [("search", QOne "a")]) /\
  list_endpoint Sample.db Subjects [("search", QOne "a")]
    = list_endpoint Sample.db Subjects (page_query 1 10 [("search", QOne "a")]).
Proof.
  apply (default_page_is_first_ten Sample.db Subjects [("search", QOne "a")]);
    reflexivity.
Defined.

(** ** What the filters select *)

Lemma left_join_In {A B : Type} (on : A -> B -> bool) (l : list A) (r : list B)
    (a : A) (ob : option B) :
  In (a, ob) (left_join on l r) <->
  In a l /\
  match ob with
  | Some b => In b r /\ on a b = true
  | None => forall b, In b r -> on a b = false
  end.
Proof.
  rewrite left_join_blocks, in_flat_map.
  assert (Hblock : In (a, ob) (join_block on r a) <->
                   match ob with
                   | Some b => In b r /\ on a b = true
                   | None => forall b, In b r -> on a b = false
                   end).
  { unfold join_block. destruct (filter (on a) r) as [|m ms] eqn:F.
    - assert (Hnone : forall b, In b r -> on a b = false).
      { intros b Hb. destruct (on a b) eqn:E; [|reflexivity].
        assert (Hin : In b (filter (on a) r)) by (apply filter_In; auto).
        rewrite F in Hin. destruct Hin. }
      destruct ob as [b|]; simpl.
      + split; [intros [[=]|[]]|]. intros [Hb E]. rewrite (Hnone b Hb) in E. discriminate.
      + tauto.
    - rewrite in_map_iff. destruct ob as [b|].
      + rewrite <- filter_In, F. split.
        * intros (x & [= ->] & Hx). exact Hx.
        * intros Hb. exists b. auto.
      + split.
        * intros (x & [=] & _).
        * intros Hnone.
          assert (Hm : In m (filter (on a) r)) by (rewrite F; now left).
          apply filter_In in Hm. destruct Hm as [Hm E].
          rewrite (Hnone m Hm) in E. discriminate. }
  split.
  - intros (a' & Ha' & Hin). assert (E := join_block_fst on r a' _ Hin).
    simpl in E. subst a'. split; [exact Ha'|]. now apply Hblock.
  - intros [Ha H]. exists a. split; [exact Ha|]. now apply Hblock.
Qed.

Lemma order_by_desc_In {A : Type} (key : A -> Z) (l : list A) (a : A) :
  In a (order_by_desc key l) <-> In a l.
Proof.
  split; apply Permutation_in;
    [apply Permutation_sym|]; apply order_by_desc_perm.
Qed.

Ltac use_given :=
  repeat match goal with
         | H : true = true -> _ |- _ => specialize (H eq_refl)
         end.

Ltac settle :=
  simpl; intuition (use_given; try discriminate; try congruence; try tauto).

Lemma holds_or (x y : bool) :
  holds (and3 (or3 (Some x) (Some y)) (Some true)) = x || y.
Proof. destruct x, y; reflexivity. Qed.


(** GET /api/departments lists exactly the departments whose name or
    code matches the search. *)
Theorem departments_filter_selects (db : database) (q : departments_query) (d : department) :
  In d (departments_count_relation db q) <->
  In d (departments db) /\
  (qtruthy (dq_search q) = true ->
   ilike (contains_pattern (dq_search q)) (dept_name d)
   || ilike (contains_pattern (dq_search q)) (dept_code d) = true).
Proof.
  unfold departments_count_relation, departments_where, departments_filterConditions,
    whereClause.
  destruct (qtruthy (dq_search q)); unfold where_; rewrite ?filter_In; simpl.
  all: repeat match goal with
              | |- context [ilike ?p ?t] => destruct (ilike p t)
              end;
    settle.
Qed.

Ltac decide_ilike :=
  repeat match goal with
         | |- context [ilike ?p ?t] => destruct (ilike p t)
         end;
  settle.

(** GET /api/subjects lists each subject with the department its
    [departmentId] names, or with none if there is no such department;
    the search is over the subject's name and code, and a department
    filter keeps only subjects that have a department of a matching
    name. *)
Theorem subjects_filter_selects
    (db : database) (q : subjects_query) (s : subject) (od : option department) :
  In (s, od) (subjects_ordered db q) <->
  In s (subjects db) /\
  match od with
  | Some d => In d (departments db) /\ subj_departmentId s = dept_id d
  | None => forall d, In d (departments db) -> subj_departmentId s <> dept_id d
  end /\
  (qtruthy (sq_search q) = true ->
   ilike (contains_pattern (sq_search q)) (subj_name s)
   || ilike (contains_pattern (sq_search q)) (subj_code s) = true) /\
  (qtruthy (sq_department q) = true ->
   match od with
   | Some d => ilike (contains_pattern (sq_department q)) (dept_name d) = true
   | None => False
   end).
Proof.
  unfold subjects_ordered. rewrite order_by_desc_In.
  assert (Hjoin : In (s, od) (subjects_join_departments db) <->
                  In s (subjects db) /\
                  match od with
                  | Some d => In d (departments db) /\ subj_departmentId s = dept_id d
                  | None => forall d, In d (departments db) ->
                                      subj_departmentId s <> dept_id d
                  end).
  { unfold subjects_join_departments. rewrite left_join_In.
    destruct od as [d|].
    - now rewrite Z.eqb_eq.
    - split; intros [Hs H]; (split; [exact Hs|]); intros d Hd;
        [apply Z.eqb_neq|apply Z.eqb_neq]; now apply H. }
  unfold subjects_data_relation, subjects_where, subjects_filterConditions, whereClause.
  destruct (qtruthy (sq_search q)), (qtruthy (sq_department q)); simpl app;
    unfold where_; rewrite ?filter_In, Hjoin; simpl;
    destruct od as [d|]; simpl; decide_ilike.
Qed.

(** Each row of the classes join is a stored class with the stored
    subject and the stored user its [subjectId] and [teacherId] name,
    or with none where no such row exists. *)
Lemma classes_join_In (db : database) (c : class) (os : option subject) (ou : option user) :
  In (mkClassRow c os ou) (classes_join_subjects_user db) <->
  In c (classes db) /\
  match os with
  | Some s => In s (subjects db) /\ cls_subjectId c = subj_id s
  | None => forall s, In s (subjects db) -> cls_subjectId c <> subj_id s
  end /\
  match ou with
  | Some u => In u (users db) /\ cls_teacherId c = user_id u
  | None => forall u, In u (users db) -> cls_teacherId c <> user_id u
  end.
Proof.
  unfold classes_join_subjects_user. rewrite in_map_iff.
  assert (Hpair : (exists x : class * option subject * option user,
                     mkClassRow (fst (fst x)) (snd (fst x)) (snd x) = mkClassRow c os ou /\
                     In x (left_join
                             (fun cs u => String.eqb (cls_teacherId (fst cs)) (user_id u))
                             (left_join (fun c s => cls_subjectId c =? subj_id s)
                                (classes db) (subjects db))
                             (users db)))
                  <-> In (c, os, ou)
                        (left_join
                           (fun cs u => String.eqb (cls_teacherId (fst cs)) (user_id u))
                           (left_join (fun c s => cls_subjectId c =? subj_id s)
                              (classes db) (subjects db))
                           (users db))).
  { split.
    - intros ([[c' os'] ou'] & [= -> -> ->] & H). exact H.
    - intros H. exists (c, os, ou). split; [reflexivity|exact H]. }
  rewrite Hpair, left_join_In, left_join_In. simpl fst.
  assert (Hs : match os with
               | Some s => In s (subjects db) /\ (cls_subjectId c =? subj_id s) = true
               | None => forall s, In s (subjects db) -> (cls_subjectId c =? subj_id s) = false
               end <->
               match os with
               | Some s => In s (subjects db) /\ cls_subjectId c = subj_id s
               | None => forall s, In s (subjects db) -> cls_subjectId c <> subj_id s
               end).
  { destruct os as [s|]; [now rewrite Z.eqb_eq|].
    split; intros H s Hin; apply Z.eqb_neq; now apply H. }
  assert (Hu : match ou with
               | Some u => In u (users db) /\ String.eqb (cls_teacherId c) (user_id u) = true
               | None => forall u, In u (users db) ->
                                   String.eqb (cls_teacherId c) (user_id u) = false
               end <->
               match ou with
               | Some u => In u (users db) /\ cls_teacherId c = user_id u
               | None => forall u, In u (users db) -> cls_teacherId c <> user_id u
               end).
  { destruct ou as [u|]; [now rewrite String.eqb_eq|].
    split; intros H u Hin; apply String.eqb_neq; now apply H. }
  tauto.
Qed.

(** GET /api/classes lists each class with the subject and the teacher
    its ids name (or none); the search is over the class's name and
    invite code, and a subject or teacher filter keeps only classes
    that have a subject or a teacher of a matching name. *)
Theorem classes_filter_selects (db : database) (q : classes_query) (r : class_row) :
  In r (classes_ordered db q) <->
  In r (classes_join_subjects_user db) /\
  (qtruthy (cq_search q) = true ->
   ilike (contains_pattern (cq_search q)) (cls_name (cr_class r))
   || ilike (contains_pattern (cq_search q)) (cls_inviteCode (cr_class r)) = true) /\
  (qtruthy (cq_subject q) = true ->
   match cr_subject r with
   | Some s => ilike (contains_pattern (cq_subject q)) (subj_name s) = true
   | None => False
   end) /\
  (qtruthy (cq_teacher q) = true ->
   match cr_teacher r with
   | Some u => ilike (contains_pattern (cq_teacher q)) (user_name u) = true
   | None => False
   end).
Proof.
  unfold classes_ordered. rewrite order_by_desc_In.
  unfold classes_data_relation, classes_where, classes_filterConditions, whereClause.
  destruct r as [c os ou].
  destruct (qtruthy (cq_search q)), (qtruthy (cq_subject q)), (qtruthy (cq_teacher q));
    simpl app; unfold where_; rewrite ?filter_In; simpl;
    destruct os as [s|], ou as [u|]; simpl; decide_ilike.
Qed.

(** ** Looking a row up by its id *)

Lemma first_match_unique {A : Type} (key : A -> Z) (l : list A) (a : A) :
  NoDup (map key l) -> In a l ->
  hd_error (filter (fun x => key x =? key a) l) = Some a.
Proof.
  induction l as [|b l IH]; simpl; intros Hnd Hin; [destruct Hin|].
  inversion Hnd as [|? ? Hn Hnd']; subst.
  destruct Hin as [->|Hin].
  - now rewrite Z.eqb_refl.
  - destruct (key b =? key a) eqn:E; [|now apply IH].
    apply Z.eqb_eq in E. exfalso. apply Hn. rewrite E. now apply in_map.
Qed.

Lemma filter_id_is_of_nat {A : Type} (key : A -> Z) (n : nat) (l : list A) :
  filter (fun x => id_is (key x) (of_nat n)) l
  = filter (fun x => key x =? Z.of_nat n) l.
Proof. apply filter_ext. intros x. apply id_is_of_nat. Qed.

(** GET /api/departments/<id>, the id of a stored department written in
    decimal, answers 200 with that department. *)
Theorem department_found_by_decimal_id (db : database) (d : department) :
  NoDup (map dept_id (departments db)) ->
  In d (departments db) ->
  0 <= dept_id d ->
  let r := departments_detail db (decimal (Z.to_nat (dept_id d))) in
  status r = 200%nat /\
  json_path ["data"; "department"] (body r) = Some (department_json d).
Proof.
  intros Hpk Hin Hpos r. unfold r, departments_detail.
  rewrite string_to_number_decimal. simpl isFinite. simpl negb. cbv iota.
  unfold find_department. rewrite filter_id_is_of_nat.
  rewrite Z2Nat.id by exact Hpos.
  rewrite (first_match_unique dept_id _ d Hpk Hin).
  split; reflexivity.
Qed.

Lemma department_found_by_decimal_id_witness :
  let r := departments_detail Sample.db (decimal (Z.to_nat (dept_id Sample.math))) in
  status r = 200%nat /\
  json_path ["data"; "department"] (body r) = Some (department_json Sample.math).
Proof.
  apply (department_found_by_decimal_id Sample.db Sample.math).
  - simpl. solve_NoDup.
  - simpl. tauto.
  - simpl. lia.
Defined.

Lemma subjects_join_rows (db : database) :
  NoDup (map dept_id (departments db)) ->
  subjects_join_departments db =
  map (fun s => (s, find (fun d => subj_departmentId s =? dept_id d) (departments db)))
    (subjects db).
Proof.
  intros Hd. unfold subjects_join_departments. apply left_join_functional.
  intros s. apply (unique_key_matches dept_id _ (subj_departmentId s)); [exact Hd|].
  intros d E. apply Z.eqb_eq in E. now symmetry.
Qed.

Lemma subject_classes_rows (db : database) (k : nat) :
  NoDup (map user_id (users db)) ->
  subject_classes db (of_nat k) =
  order_by_desc (fun r => cls_createdAt (fst r))
    (map (fun c => (c, find (fun u => String.eqb (cls_teacherId c) (user_id u)) (users db)))
       (filter (fun c => cls_subjectId c =? Z.of_nat k) (classes db))).
Proof.
  intros Hu. unfold subject_classes. f_equal.
  rewrite left_join_blocks.
  rewrite (filter_join_blocks _ (fun c => id_is (cls_subjectId c) (of_nat k))).
  rewrite filter_id_is_of_nat, <- left_join_blocks.
  apply left_join_functional.
  intros c. apply (unique_key_matches user_id _ (cls_teacherId c)); [exact Hu|].
  intros u E. apply String.eqb_eq in E. now symmetry.
Qed.

(** GET /api/subjects/<id>, the id of a stored subject written in
    decimal, answers 200 with that subject and its department (or
    none), with one row per class of the subject, each with its
    teacher, and with their number as [totals.classes]. *)
Theorem subject_found_by_decimal_id (db : database) (s : subject) :
  primary_keys db ->
  In s (subjects db) ->
  0 <= subj_id s ->
  let r := subjects_detail db (decimal (Z.to_nat (subj_id s))) in
  let taught := filter (fun c => cls_subjectId c =? subj_id s) (classes db) in
  status r = 200%nat /\
  json_path ["data"; "subject"] (body r) =
    Some (subject_row_json
            (s, find (fun d => subj_departmentId s =? dept_id d) (departments db))) /\
  json_path_length ["data"; "classes"] (body r) = Some (List.length taught) /\
  json_path ["data"; "totals"; "classes"] (body r) = Some (JNat (List.length taught)) /\
  (forall c ou, In (c, ou) (subject_classes db (string_to_number
                                                  (decimal (Z.to_nat (subj_id s))))) <->
                In c taught /\
                ou = find (fun u => String.eqb (cls_teacherId c) (user_id u)) (users db)).
Proof.
  intros [Hu Hd Hs _] Hin Hpos r taught.
  assert (Hrows := subject_classes_rows db (Z.to_nat (subj_id s)) Hu).
  rewrite Z2Nat.id in Hrows by exact Hpos. fold taught in Hrows.
  unfold r, subjects_detail.
  rewrite string_to_number_decimal. simpl isFinite. simpl negb. cbv iota.
  assert (Hfind : find_subject db (of_nat (Z.to_nat (subj_id s))) =
                  Some (s, find (fun d => subj_departmentId s =? dept_id d)
                             (departments db))).
  { unfold find_subject. rewrite subjects_join_rows by exact Hd.
    rewrite filter_id_is_of_nat, Z2Nat.id by exact Hpos.
    assert (H := first_match_unique
                   (fun r : subject * option department => subj_id (fst r))
                   (map (fun s => (s, find (fun d => subj_departmentId s =? dept_id d)
                                        (departments db))) (subjects db))
                   (s, find (fun d => subj_departmentId s =? dept_id d) (departments db))).
    simpl in H. apply H.
    - rewrite map_map. simpl. exact Hs.
    - apply in_map_iff. exists s. auto. }
  rewrite Hfind, Hrows.
  split; [reflexivity|]. split; [reflexivity|].
  unfold json_path_length. simpl.
  rewrite !length_map, order_by_desc_length, !length_map.
  split; [reflexivity|]. split; [reflexivity|].
  intros c ou. rewrite order_by_desc_In, in_map_iff. split.
  - intros (c' & [= -> <-] & Hc). auto.
  - intros [Hc ->]. exists c. auto.
Qed.

Lemma subject_found_by_decimal_id_witness :
  let r := subjects_detail Sample.db (decimal (Z.to_nat (subj_id Sample.algorithms))) in
  let taught := filter (fun c => cls_subjectId c =? subj_id Sample.algorithms)
                  (classes Sample.db) in
  status r = 200%nat /\
  json_path ["data"; "subject"] (body r) =
    Some (subject_row_json
            (Sample.algorithms,
             find (fun d => subj_departmentId Sample.algorithms =? dept_id d)
               (departments Sample.db))) /\
  json_path_length ["data"; "classes"] (body r) = Some (List.length taught) /\
  json_path ["data"; "totals"; "classes"] (body r) = Some (JNat (List.length taught)) /\
  (forall c ou, In (c, ou) (subject_classes Sample.db
                              (string_to_number
                                 (decimal (Z.to_nat (subj_id Sample.algorithms))))) <->
                In c taught /\
                ou = find (fun u => String.eqb (cls_teacherId c) (user_id u))
                       (users Sample.db)).
Proof.
  apply (subject_found_by_decimal_id Sample.db Sample.algorithms).
  - constructor; simpl; solve_NoDup.
  - simpl. tauto.
  - simpl. lia.
Defined.

(** ** The counts next to the rows *)

Lemma count_some_block {A B : Type} (on : A -> B -> bool) (r : list B) (a : A) :
  count_some (map snd (join_block on r a)) = List.length (filter (on a) r).
Proof.
  unfold join_block, count_some. destruct (filter (on a) r) as [|m ms]; [reflexivity|].
  rewrite map_map. generalize (m :: ms). intros l.
  induction l as [|x xs IH]; simpl in *; [reflexivity|now f_equal].
Qed.

(** Each row of GET /api/departments is a department that passes the
    filter, once, with the number of its subjects as [totalSubjects]
    (0 when it has none). *)
Theorem departments_list_counts_subjects
    (db : database) (q : departments_query) (d : department) (n : nat) :
  NoDup (map dept_id (departments db)) ->
  (In (d, n) (departments_ordered db q) <->
   In d (departments_count_relation db q) /\ n = List.length (subjects_of db d)) /\
  NoDup (map fst (departments_ordered db q)).
Proof.
  intros Hpk.
  assert (Hcount : forall d, count_some (map snd
            (join_block (fun d s => dept_id d =? subj_departmentId s) (subjects db) d))
          = List.length (subjects_of db d)).
  { intros d'. rewrite count_some_block. unfold subjects_of. f_equal.
    apply filter_ext. intros s. apply Z.eqb_sym. }
  split.
  - unfold departments_ordered. rewrite order_by_desc_In.
    rewrite departments_grouped_rows by exact Hpk. rewrite in_map_iff. split.
    + intros (d' & [= -> <-] & Hin). split; [exact Hin|]. apply Hcount.
    + intros [Hin ->]. exists d. split; [now rewrite Hcount|exact Hin].
  - eapply Permutation_NoDup.
    + apply Permutation_map, order_by_desc_perm.
    + rewrite departments_grouped_count by exact Hpk.
      apply (NoDup_map_inv dept_id). unfold departments_count_relation.
      now apply where_NoDup.
Qed.

Lemma departments_list_counts_subjects_witness :
  (In (Sample.cs, 2%nat)
      (departments_ordered Sample.db (mkDepartmentsQuery QAbsent QAbsent QAbsent)) <->
   In Sample.cs
      (departments_count_relation Sample.db (mkDepartmentsQuery QAbsent QAbsent QAbsent)) /\
   2%nat = List.length (subjects_of Sample.db Sample.cs)) /\
  NoDup (map fst (departments_ordered Sample.db
                    (mkDepartmentsQuery QAbsent QAbsent QAbsent))).
Proof.
  apply (departments_list_counts_subjects Sample.db
           (mkDepartmentsQuery QAbsent QAbsent QAbsent) Sample.cs 2).
  simpl. solve_NoDup.
Defined.

(** In a department's detail each subject of the department appears
    once, with the number of its classes as [totalClasses]. *)
Theorem department_subjects_count_classes
    (db : database) (d : department) (id : jsnum) (s : subject) (n : nat) :
  NoDup (map subj_id (subjects db)) ->
  id_is (dept_id d) id = true ->
  (In (s, n) (department_subjects db id) <->
   In s (subjects_of db d) /\
   n = List.length (filter (fun c => cls_subjectId c =? subj_id s) (classes db))) /\
  NoDup (map fst (department_subjects db id)).
Proof.
  intros Hpk Hd.
  assert (Hrows : department_subjects db id =
                  order_by_desc (fun r => subj_createdAt (fst r))
                    (map (fun s => (s, List.length
                            (filter (fun c => cls_subjectId c =? subj_id s) (classes db))))
                       (subjects_of db d))).
  { unfold department_subjects, subjects_of. f_equal.
    rewrite left_join_blocks.
    rewrite (filter_join_blocks _ (fun s => id_is (subj_departmentId s) id)).
    rewrite (group_by_blocks Z.eqb (fun r : subject * option class => subj_id (fst r))
               Z.eqb_eq subj_id).
    - rewrite (grouped_blocks _ _ (fun s g => (s, count_some (map snd g)))).
      rewrite (filter_ext _ (fun s => subj_departmentId s =? dept_id d))
        by (intros x; now apply id_is_eqb).
      apply map_ext. intros x. rewrite count_some_block. do 2 f_equal.
      apply filter_ext. intros c. apply Z.eqb_sym.
    - apply join_block_nonempty.
    - intros x y Hy. now rewrite (join_block_fst _ _ _ _ Hy).
    - now apply NoDup_map_filter. }
  rewrite Hrows. split.
  - rewrite order_by_desc_In, in_map_iff. split.
    + intros (s' & [= -> <-] & Hin). auto.
    + intros [Hin ->]. exists s. auto.
  - eapply Permutation_NoDup.
    + apply Permutation_map, order_by_desc_perm.
    + rewrite map_map. simpl. rewrite map_id.
      apply (NoDup_map_inv subj_id). unfold subjects_of. now apply NoDup_map_filter.
Qed.

Lemma department_subjects_count_classes_witness :
  (In (Sample.algorithms, 2%nat) (department_subjects Sample.db (of_nat 1)) <->
   In Sample.algorithms (subjects_of Sample.db Sample.cs) /\
   2%nat = List.length
             (filter (fun c => cls_subjectId c =? subj_id Sample.algorithms)
                (classes Sample.db))) /\
  NoDup (map fst (department_subjects Sample.db (of_nat 1))).
Proof.
  apply (department_subjects_count_classes Sample.db Sample.cs (of_nat 1)
           Sample.algorithms 2).
  - simpl. solve_NoDup.
  - reflexivity.
Defined.

(** ** The rows of a user's detail *)

Lemma filter_map_comm {A B : Type} (f : A -> B) (p : B -> bool) (l : list A) :
  filter p (map f l) = map f (filter (fun a => p (f a)) l).
Proof.
  induction l as [|a l IH]; simpl; [reflexivity|].
  destruct (p (f a)); simpl; now rewrite IH.
Qed.

Lemma no_match_none {B : Type} (r : list B) :
  (List.length (filter (fun _ : B => false) r) <= 1)%nat.
Proof. induction r; simpl; lia. Qed.

Lemma subject_department_unique (db : database) (os : option subject) :
  NoDup (map dept_id (departments db)) ->
  (List.length (filter (subject_department_on os) (departments db)) <= 1)%nat.
Proof.
  intros Hd. destruct os as [s|]; simpl; [|apply no_match_none].
  apply (unique_key_matches dept_id _ (subj_departmentId s)); [exact Hd|].
  intros d E. apply Z.eqb_eq in E. now symmetry.
Qed.

Lemma class_subject_unique (db : database) (oc : option class) :
  NoDup (map subj_id (subjects db)) ->
  (List.length (filter (class_subject_on oc) (subjects db)) <= 1)%nat.
Proof.
  intros Hs. destruct oc as [c|]; simpl; [|apply no_match_none].
  apply (unique_key_matches subj_id _ (cls_subjectId c)); [exact Hs|].
  intros s E. apply Z.eqb_eq in E. now symmetry.
Qed.

Lemma class_teacher_unique (db : database) (oc : option class) :
  NoDup (map user_id (users db)) ->
  (List.length (filter (class_teacher_on oc) (users db)) <= 1)%nat.
Proof.
  intros Hu. destruct oc as [c|]; simpl; [|apply no_match_none].
  apply (unique_key_matches user_id _ (cls_teacherId c)); [exact Hu|].
  intros u E. apply String.eqb_eq in E. now symmetry.
Qed.

(** With unique subject and department ids the teacher's query keeps
    one row per class the user teaches. *)
Lemma taught_classes_rows (db : database) (userId : string) :
  NoDup (map subj_id (subjects db)) ->
  NoDup (map dept_id (departments db)) ->
  taught_classes db userId =
  order_by_desc (fun r => cls_createdAt (tr_class r))
    (map (fun c =>
            let os := find (fun s => cls_subjectId c =? subj_id s) (subjects db) in
            mkTaughtRow c os (find (subject_department_on os) (departments db)))
       (filter (fun c => String.eqb (cls_teacherId c) userId) (classes db))).
Proof.
  intros Hs Hd. unfold taught_classes. f_equal.
  rewrite (left_join_functional (fun c s => cls_subjectId c =? subj_id s)).
  - rewrite left_join_functional.
    + rewrite !map_map, filter_map_comm. reflexivity.
    + intros cs. now apply subject_department_unique.
  - intros c. apply (unique_key_matches subj_id _ (cls_subjectId c)); [exact Hs|].
    intros s E. apply Z.eqb_eq in E. now symmetry.
Qed.

(** For a teacher, [classes] holds one row per class whose [teacherId]
    is the user's id, each with its subject and the subject's
    department (or none), and [totals.classes] is their number. *)
Theorem teacher_detail_lists_own_classes (db : database) (id : string) (u : user) :
  primary_keys db ->
  find_user db id = Some u ->
  user_role u = Teacher ->
  let r := users_detail db id in
  let own := filter (fun c => String.eqb (cls_teacherId c) id) (classes db) in
  status r = 200%nat /\
  json_path_length ["data"; "classes"] (body r) = Some (List.length own) /\
  json_path ["data"; "totals"; "classes"] (body r) = Some (JNat (List.length own)) /\
  (forall row, In row (taught_classes db id) <->
     In (tr_class row) own /\
     tr_subject row
       = find (fun s => cls_subjectId (tr_class row) =? subj_id s) (subjects db) /\
     tr_department row
       = find (subject_department_on (tr_subject row)) (departments db)).
Proof.
  intros [_ Hd Hs _] Hu Hrole r own.
  assert (Hrows := taught_classes_rows db id Hs Hd). fold own in Hrows.
  unfold r, users_detail. rewrite Hu, Hrole. unfold json_path_length. simpl.
  rewrite !length_map, Hrows, order_by_desc_length, length_map.
  repeat split; try reflexivity.
  - rewrite order_by_desc_In, in_map_iff in H.
    destruct H as (c & <- & Hc). exact Hc.
  - rewrite order_by_desc_In, in_map_iff in H.
    destruct H as (c & <- & Hc). reflexivity.
  - rewrite order_by_desc_In, in_map_iff in H.
    destruct H as (c & <- & Hc). reflexivity.
  - intros (Hc & Hsub & Hdep). rewrite order_by_desc_In, in_map_iff.
    exists (tr_class row). split; [|exact Hc].
    destruct row as [c os od]. simpl in *. now subst.
Qed.

Lemma teacher_detail_lists_own_classes_witness :
  let r := users_detail Sample.db "t1" in
  let own := filter (fun c => String.eqb (cls_teacherId c) "t1") (classes Sample.db) in
  status r = 200%nat /\
  json_path_length ["data"; "classes"] (body r) = Some (List.length own) /\
  json_path ["data"; "totals"; "classes"] (body r) = Some (JNat (List.length own)) /\
  (forall row, In row (taught_classes Sample.db "t1") <->
     In (tr_class row) own /\
     tr_subject row
       = find (fun s => cls_subjectId (tr_class row) =? subj_id s) (subjects Sample.db) /\
     tr_department row
       = find (subject_department_on (tr_subject row)) (departments Sample.db)).
Proof.
  apply (teacher_detail_lists_own_classes Sample.db "t1" Sample.tess).
  - constructor; simpl; solve_NoDup.
  - reflexivity.
  - reflexivity.
Defined.

(** With unique ids the student's query keeps one row per enrollment of
    the student. *)
Lemma student_enrollments_rows (db : database) (userId : string) :
  primary_keys db ->
  student_enrollments db userId =
  order_by_desc (fun r => enr_createdAt (er_enrollment r))
    (map (fun e =>
            let oc := find (fun c => enr_classId e =? cls_id c) (classes db) in
            let os := find (class_subject_on oc) (subjects db) in
            mkEnrolledRow e oc os
              (find (subject_department_on os) (departments db))
              (find (class_teacher_on oc) (users db)))
       (filter (fun e => String.eqb (enr_studentId e) userId) (enrollments db))).
Proof.
  intros [Hu Hd Hs Hc]. unfold student_enrollments. f_equal.
  rewrite (left_join_functional (fun e c => enr_classId e =? cls_id c)).
  - rewrite (left_join_functional (fun r s => class_subject_on (snd r) s)).
    + rewrite (left_join_functional (fun r d => subject_department_on (snd r) d)).
      * rewrite left_join_functional.
        -- rewrite !map_map, filter_map_comm. reflexivity.
        -- intros r. now apply class_teacher_unique.
      * intros r. now apply subject_department_unique.
    + intros r. now apply class_subject_unique.
  - intros e. apply (unique_key_matches cls_id _ (enr_classId e)); [exact Hc|].
    intros c E. apply Z.eqb_eq in E. now symmetry.
Qed.

(** For a student, [enrollments] holds one row per enrollment whose
    [studentId] is the user's id, and [totals.enrollments] is their
    number. *)
Theorem student_detail_lists_own_enrollments (db : database) (id : string) (u : user) :
  primary_keys db ->
  find_user db id = Some u ->
  user_role u = Student ->
  let r := users_detail db id in
  let own := filter (fun e => String.eqb (enr_studentId e) id) (enrollments db) in
  status r = 200%nat /\
  json_path_length ["data"; "enrollments"] (body r) = Some (List.length own) /\
  json_path ["data"; "totals"; "enrollments"] (body r) = Some (JNat (List.length own)) /\
  Permutation (map er_enrollment (student_enrollments db id)) own.
Proof.
  intros Hpk Hu Hrole r own.
  assert (Hrows := student_enrollments_rows db id Hpk). fold own in Hrows.
  unfold r, users_detail. rewrite Hu, Hrole. unfold json_path_length. simpl.
  rewrite !length_map, Hrows, order_by_desc_length, length_map.
  repeat split.
  eapply Permutation_trans.
  - apply Permutation_map, Permutation_sym, order_by_desc_perm.
  - rewrite map_map. simpl. rewrite map_id. apply Permutation_refl.
Qed.

Lemma student_detail_lists_own_enrollments_witness :
  let r := users_detail Sample.db "s1" in
  let own := filter (fun e => String.eqb (enr_studentId e) "s1") (enrollments Sample.db) in
  status r = 200%nat /\
  json_path_length ["data"; "enrollments"] (body r) = Some (List.length own) /\
  json_path ["data"; "totals"; "enrollments"] (body r) = Some (JNat (List.length own)) /\
  Permutation (map er_enrollment (student_enrollments Sample.db "s1")) own.
Proof.
  apply (student_detail_lists_own_enrollments Sample.db "s1" Sample.sam).
  - constructor; simpl; solve_NoDup.
  - reflexivity.
  - reflexivity.
Defined.

(** ** The students of a department *)

Lemma left_join_app {A B : Type} (on : A -> B -> bool) (l1 l2 : list A) (r : list B) :
  left_join on (l1 ++ l2) r = (left_join on l1 r ++ left_join on l2 r)%list.
Proof. unfold left_join. apply flat_map_app. Qed.

Lemma filter_flat_map {A B : Type} (p : B -> bool) (f : A -> list B) (l : list A) :
  filter p (flat_map f l) = flat_map (fun a => filter p (f a)) l.
Proof.
  induction l as [|a l IH]; simpl; [reflexivity|]. now rewrite filter_app, IH.
Qed.

Lemma map_flat_map {A B C : Type} (g : B -> C) (f : A -> list B) (l : list A) :
  map g (flat_map f l) = flat_map (fun a => map g (f a)) l.
Proof.
  induction l as [|a l IH]; simpl; [reflexivity|]. now rewrite map_app, IH.
Qed.

Lemma student_key_eqb_spec (a b : student_key) : student_key_eqb a b = true <-> a = b.
Proof.
  destruct a as [[[[i n] e] im] r], b as [[[[i' n'] e'] im'] r']. simpl.
  rewrite !andb_true_iff, !String.eqb_eq.
  assert (Him : option_string_eqb im im' = true <-> im = im').
  { destruct im, im'; simpl; rewrite ?String.eqb_eq; split; congruence. }
  assert (Hr : role_eqb r r' = true <-> r = r').
  { destruct r, r'; simpl; split; congruence. }
  rewrite Him, Hr. split.
  - intros ((((-> & ->) & ->) & ->) & ->). reflexivity.
  - intros [= -> -> -> -> ->]. auto.
Qed.

Lemma student_keys_NoDup (l : list user) :
  NoDup (map user_id l) -> NoDup (map student_key_of l).
Proof.
  induction l as [|u l IH]; simpl; intros Hnd; [constructor|].
  inversion Hnd as [|? ? Hn Hnd']; subst. constructor; [|now apply IH].
  intros Hin. apply Hn. apply in_map_iff in Hin. destruct Hin as (v & Hk & Hv).
  apply in_map_iff. exists v. split; [|exact Hv].
  unfold student_key_of in Hk. congruence.
Qed.

Section StudentsOfDepartment.
Variable db : database.
Variable id : jsnum.

Lemma chain_cons (u : user) (l : list user) :
  student_chain db (u :: l) = (student_chain db [u] ++ student_chain db l)%list.
Proof.
  unfold student_chain. change (u :: l) with ([u] ++ l)%list.
  now rewrite !left_join_app.
Qed.

Lemma chain_In (l : list user) (u : user) (oe : option enrollment)
    (oc : option class) (os : option subject) :
  In (u, oe, oc, os) (student_chain db l) <->
  In u l /\
  match oe with
  | Some e => In e (enrollments db) /\ String.eqb (user_id u) (enr_studentId e) = true
  | None => forall e, In e (enrollments db) ->
                      String.eqb (user_id u) (enr_studentId e) = false
  end /\
  match oc with
  | Some c => In c (classes db) /\ enrollment_class_on oe c = true
  | None => forall c, In c (classes db) -> enrollment_class_on oe c = false
  end /\
  match os with
  | Some s => In s (subjects db) /\ class_subject_on oc s = true
  | None => forall s, In s (subjects db) -> class_subject_on oc s = false
  end.
Proof. unfold student_chain. rewrite !left_join_In. simpl. tauto. Qed.

Lemma chain_user (u : user)
    (r : user * option enrollment * option class * option subject) :
  In r (student_chain db [u]) -> fst (fst (fst r)) = u.
Proof.
  destruct r as [[[u' oe] oc] os]. rewrite chain_In. simpl.
  intros [[->|[]] _]. reflexivity.
Qed.

(** Some row of the user (student_passes id) the WHERE clause exactly if the user is
    a student enrolled in the department. *)
Lemma passes_studies (u : user) :
  existsb (student_passes id) (student_chain db [u]) = studies_in db id u.
Proof.
  apply eq_true_iff_eq. rewrite existsb_exists. unfold studies_in.
  rewrite andb_true_iff, existsb_exists. split.
  - intros ([[[u' oe] oc] os] & Hin & Hp).
    apply chain_In in Hin. destruct Hin as ([->|[]] & He & Hc & Hs).
    unfold student_passes in Hp. simpl in Hp. apply andb_true_iff in Hp.
    destruct Hp as [Hrole Hdep]. split; [exact Hrole|].
    destruct os as [s|]; [|discriminate]. destruct Hs as [Hs Hon].
    destruct oc as [c|]; [|discriminate]. destruct Hc as [Hc Hon'].
    destruct oe as [e|]; [|discriminate]. destruct He as [He Hon''].
    exists e. split; [exact He|]. apply andb_true_iff. split; [exact Hon''|].
    apply existsb_exists. exists c. split; [exact Hc|].
    apply andb_true_iff. split; [exact Hon'|].
    apply existsb_exists. exists s. split; [exact Hs|].
    apply andb_true_iff. split; [exact Hon|exact Hdep].
  - intros (Hrole & e & He & Hrest).
    apply andb_true_iff in Hrest. destruct Hrest as [Hon'' Hrest].
    apply existsb_exists in Hrest. destruct Hrest as (c & Hc & Hrest).
    apply andb_true_iff in Hrest. destruct Hrest as [Hon' Hrest].
    apply existsb_exists in Hrest. destruct Hrest as (s & Hs & Hrest).
    apply andb_true_iff in Hrest. destruct Hrest as [Hon Hdep].
    exists (u, Some e, Some c, Some s). split.
    + apply chain_In. simpl. tauto.
    + unfold student_passes. simpl. now rewrite Hrole, Hdep.
Qed.

Lemma block_repeats (u v : user) : In v (student_block db id u) -> v = u.
Proof.
  unfold student_block. rewrite in_map_iff. intros (r & <- & Hr).
  apply filter_In in Hr. now apply chain_user.
Qed.

Lemma block_empty (u : user) : studies_in db id u = false -> student_block db id u = [].
Proof.
  rewrite <- passes_studies. unfold student_block. intros H.
  induction (student_chain db [u]) as [|r l IH]; simpl in *; [reflexivity|].
  apply orb_false_iff in H. destruct H as [-> H]. now apply IH.
Qed.

Lemma block_head (u : user) :
  studies_in db id u = true -> exists rest, student_block db id u = u :: rest.
Proof.
  rewrite <- passes_studies. intros H.
  destruct (student_block db id u) as [|v rest] eqn:E.
  - exfalso. apply existsb_exists in H. destruct H as (r & Hr & Hp).
    assert (Hin : In (fst (fst (fst r))) (student_block db id u)).
    { unfold student_block.
      apply (in_map (fun r : user * option enrollment * option class * option subject =>
                       fst (fst (fst r)))).
      apply filter_In. auto. }
    rewrite E in Hin. destruct Hin.
  - exists rest. f_equal. apply block_repeats. rewrite E. now left.
Qed.

Lemma students_blocks (l : list user) :
  map (fun r : user * option enrollment * option class * option subject =>
         fst (fst (fst r))) (filter (student_passes id) (student_chain db l))
  = flat_map (student_block db id) (filter (studies_in db id) l).
Proof.
  induction l as [|u l IH]; [reflexivity|].
  rewrite chain_cons, filter_app, map_app, IH. fold (student_block db id u). simpl filter.
  destruct (studies_in db id u) eqn:E; simpl; [reflexivity|].
  now rewrite (block_empty u E).
Qed.

(** The students query returns the users that are students enrolled in
    the department, each once, newest first. *)
Lemma department_students_rows :
  NoDup (map user_id (users db)) ->
  department_students db id =
  order_by_desc user_createdAt (filter (studies_in db id) (users db)).
Proof.
  intros Hpk. unfold department_students. f_equal.
  change (map _ (filter _ _)) with
    (map (fun r : user * option enrollment * option class * option subject =>
            fst (fst (fst r)))
       (filter (student_passes id) (student_chain db (users db)))).
  rewrite students_blocks.
  set (ss := filter (studies_in db id) (users db)).
  assert (Hss : forall u, In u ss -> studies_in db id u = true)
    by (intros u Hu; apply filter_In in Hu; tauto).
  set (full := fun u => match student_block db id u with [] => [u] | b => b end).
  assert (Hfull : flat_map (student_block db id) ss = flat_map full ss).
  { clearbody ss. induction ss as [|u l IH]; simpl; [reflexivity|].
    rewrite IH by (intros v Hv; apply Hss; now right).
    f_equal. unfold full.
    destruct (block_head u (Hss u (or_introl eq_refl))) as (rest & ->).
    reflexivity. }
  rewrite Hfull.
  rewrite (group_by_blocks student_key_eqb student_key_of student_key_eqb_spec
             student_key_of full).
  - clear Hfull. clearbody ss. induction ss as [|u l IH]; simpl; [reflexivity|].
    rewrite IH by (intros v Hv; apply Hss; now right).
    unfold full at 1.
    destruct (block_head u (Hss u (or_introl eq_refl))) as (rest & ->).
    reflexivity.
  - intros u. unfold full. destruct (student_block db id u); discriminate.
  - intros u v. unfold full. destruct (student_block db id u) as [|w b] eqn:E.
    + intros [->|[]]. reflexivity.
    + intros Hv. rewrite <- E in Hv. now rewrite (block_repeats u v Hv).
  - apply student_keys_NoDup. unfold ss. now apply NoDup_map_filter.
Qed.
End StudentsOfDepartment.

(** In a department's detail, [enrolledStudents] holds exactly the
    users with the role student that have an enrollment in a class of a
    subject of the department, each once whatever the number of their
    enrollments, newest first, and [totals.enrolledStudents] is their
    number. *)
Theorem department_detail_lists_students (db : database) (id : string) (d : department) :
  NoDup (map user_id (users db)) ->
  isFinite (string_to_number id) = true ->
  find_department db (string_to_number id) = Some d ->
  let r := departments_detail db id in
  let students := department_students db (string_to_number id) in
  (forall u, In u students <->
             In u (users db) /\ studies_in db (string_to_number id) u = true) /\
  NoDup (map user_id students) /\
  descending user_createdAt students /\
  json_path ["data"; "enrolledStudents"] (body r)
    = Some (JArr (map enrolled_student_json students)) /\
  json_path ["data"; "totals"; "enrolledStudents"] (body r)
    = Some (JNat (List.length
                    (filter (studies_in db (string_to_number id)) (users db)))).
Proof.
  intros Hpk Hfin Hfind r students.
  assert (Hrows := department_students_rows db (string_to_number id) Hpk).
  fold students in Hrows.
  split; [|split; [|split; [|split]]].
  - intros u. rewrite Hrows, order_by_desc_In, filter_In. tauto.
  - rewrite Hrows. eapply Permutation_NoDup.
    + apply Permutation_map, order_by_desc_perm.
    + now apply NoDup_map_filter.
  - rewrite Hrows. apply order_by_desc_sorted.
  - unfold r, departments_detail. rewrite Hfin, Hfind. reflexivity.
  - unfold r, departments_detail. rewrite Hfin, Hfind. simpl.
    fold students. now rewrite Hrows, order_by_desc_length.
Qed.

Lemma department_detail_lists_students_witness :
  let r := departments_detail Sample.db "1" in
  let students := department_students Sample.db (string_to_number "1") in
  (forall u, In u students <->
             In u (users Sample.db) /\
             studies_in Sample.db (string_to_number "1") u = true) /\
  NoDup (map user_id students) /\
  descending user_createdAt students /\
  json_path ["data"; "enrolledStudents"] (body r)
    = Some (JArr (map enrolled_student_json students)) /\
  json_path ["data"; "totals"; "enrolledStudents"] (body r)
    = Some (JNat (List.length
                    (filter (studies_in Sample.db (string_to_number "1"))
                       (users Sample.db)))).
Proof.
  apply (department_detail_lists_students Sample.db "1" Sample.cs).
  - simpl. solve_NoDup.
  - reflexivity.
  - reflexivity.
Defined.

(** Sam has two enrollments in the department and is listed once. *)
Example sample_department_students :
  department_students Sample.db (of_nat 1) = [Sample.sam].
Proof. reflexivity. Qed.

(** ** Totals without filters *)

(** With ids as primary keys the joins of the list routes add no rows:
    without filters the total is the size of the route's own table. *)
Theorem unfiltered_total_is_table_size
    (db : database) (e : endpoint) (page limit : qparam) :
  primary_keys db ->
  list_total db e (paged page limit []) =
  match e with
  | Users => List.length (users db)
  | Subjects => List.length (subjects db)
  | Classes => List.length (classes db)
  | Departments => List.length (departments db)
  end.
Proof.
  intros [Hu Hd Hs _]. destruct e; simpl; try reflexivity.
  - unfold subjects_total, subjects_count_relation. simpl.
    now rewrite subjects_join_rows, length_map.
  - unfold classes_total, classes_count_relation. simpl.
    now rewrite classes_join_rows, length_map.
Qed.

Lemma unfiltered_total_is_table_size_witness :
  list_total Sample.db Classes (paged (QOne "2") QAbsent []) =
  List.length (classes Sample.db).
Proof.
  apply (unfiltered_total_is_table_size Sample.db Classes (QOne "2") QAbsent).
  constructor; simpl; solve_NoDup.
Defined.

(** ** The distinct children in a user's detail *)

Lemma children_In {R A : Type} (child : R -> option A) (rows : list R) (a : A) :
  In a (children child rows) <-> exists r, In r rows /\ child r = Some a.
Proof.
  unfold children. rewrite in_flat_map. split.
  - intros (r & Hr & Ha). exists r. split; [exact Hr|].
    destruct (child r) as [b|]; [|destruct Ha]. destruct Ha as [->|[]]. reflexivity.
  - intros (r & Hr & E). exists r. split; [exact Hr|]. rewrite E. now left.
Qed.

Lemma flatten_values_In {R A : Type} (id : A -> Z) (child : R -> option A)
    (rows : list R) (a : A) :
  (forall x y, In x (children child rows) -> In y (children child rows) ->
               id x = id y -> x = y) ->
  In a (JsMap.values (flatten id child rows)) <->
  In a (children child rows) /\ id a <> 0.
Proof.
  intros Hcons. unfold JsMap.values. rewrite in_map_iff. split.
  - intros ([k v] & <- & Hin). simpl.
    destruct (flatten_entries id child rows k v Hin) as (Hc & _ & Hnz). auto.
  - intros [Hc Hnz].
    assert (Hk : In (id a) (JsMap.keys (flatten id child rows))).
    { rewrite (proj1 (flatten_keys id child rows)), distinct_keys_In.
      apply in_map. unfold kept. apply filter_In. split; [exact Hc|].
      unfold id_truthy. now apply negb_true_iff, Z.eqb_neq. }
    unfold JsMap.keys in Hk. apply in_map_iff in Hk.
    destruct Hk as ([k v] & Hkv & Hin). simpl in Hkv. subst k.
    exists (id a, v). split; [|exact Hin]. simpl.
    destruct (flatten_entries id child rows _ v Hin) as (Hv & Hid & _).
    apply Hcons; auto.
Qed.

Lemma flatten_values_NoDup {R A : Type} (id : A -> Z) (child : R -> option A)
    (rows : list R) :
  NoDup (map id (JsMap.values (flatten id child rows))).
Proof.
  assert (Hk : NoDup (JsMap.keys (flatten id child rows))).
  { rewrite (proj1 (flatten_keys id child rows)). apply distinct_keys_NoDup. }
  assert (He : forall k v, In (k, v) (flatten id child rows) -> k = id v).
  { intros k v Hin. now destruct (flatten_entries id child rows k v Hin) as (_ & ? & _). }
  unfold JsMap.keys, JsMap.values in *.
  induction (flatten id child rows) as [|[k v] m IH]; simpl in *; [constructor|].
  inversion Hk as [|? ? Hn Hk']; subst.
  rewrite map_map in *. 
  assert (Hsame : map (fun x : Z * A => id (snd x)) m = map fst m).
  { clear - He. induction m as [|[k' v'] m IH]; simpl; [reflexivity|].
    rewrite IH by (intros k0 v0 H0; apply He; simpl; tauto).
    f_equal. symmetry. apply He. right. now left. }
  rewrite Hsame. rewrite <- (He k v) by now left. now constructor.
Qed.

Lemma find_unique {A : Type} (key : A -> Z) (l : list A) (a : A) :
  NoDup (map key l) -> In a l -> find (fun x => key a =? key x) l = Some a.
Proof.
  induction l as [|b l IH]; simpl; intros Hnd Hin; [destruct Hin|].
  inversion Hnd as [|? ? Hn Hnd']; subst.
  destruct Hin as [->|Hin]; [now rewrite Z.eqb_refl|].
  destruct (key a =? key b) eqn:E; [|now apply IH].
  apply Z.eqb_eq in E. exfalso. apply Hn. rewrite <- E. now apply in_map.
Qed.

(** For a teacher, [subjects] holds exactly the stored subjects, with an
    id other than 0, that some class of the teacher names, each once. *)
Theorem teacher_detail_lists_subjects (db : database) (id : string) (u : user) :
  primary_keys db ->
  find_user db id = Some u ->
  user_role u = Teacher ->
  let listed := JsMap.values (flatten subj_id tr_subject (taught_classes db id)) in
  json_path ["data"; "subjects"] (body (users_detail db id))
    = Some (JArr (map subject_json listed)) /\
  NoDup (map subj_id listed) /\
  (forall s, In s listed <->
     In s (subjects db) /\ subj_id s <> 0 /\
     exists c, In c (classes db) /\ cls_teacherId c = id /\ cls_subjectId c = subj_id s).
Proof.
  intros [_ Hd Hs _] Hu Hrole listed.
  assert (Hrows := taught_classes_rows db id Hs Hd).
  assert (Hchild : forall s, In s (children tr_subject (taught_classes db id)) <->
            In s (subjects db) /\
            exists c, In c (classes db) /\ cls_teacherId c = id /\
                      cls_subjectId c = subj_id s).
  { intros s. rewrite children_In. split.
    - intros (row & Hrow & E). rewrite Hrows, order_by_desc_In, in_map_iff in Hrow.
      destruct Hrow as (c & <- & Hc). simpl in E.
      apply filter_In in Hc. destruct Hc as [Hc Ht]. apply String.eqb_eq in Ht.
      apply find_some in E. destruct E as [Hin E]. apply Z.eqb_eq in E.
      split; [exact Hin|]. exists c. auto.
    - intros (Hin & c & Hc & Ht & E).
      exists (mkTaughtRow c (Some s)
                (find (subject_department_on (Some s)) (departments db))).
      split; [|reflexivity].
      rewrite Hrows, order_by_desc_In, in_map_iff. exists c. split.
      + simpl. rewrite E, (find_unique subj_id _ s Hs Hin). reflexivity.
      + apply filter_In. split; [exact Hc|]. now apply String.eqb_eq. }
  split; [|split].
  - unfold users_detail. rewrite Hu, Hrole.
    change (json_path ["subjects"] (teacher_data db u id)
            = Some (JArr (map subject_json listed))).
    apply (teacher_data_maps db u id).
  - apply flatten_values_NoDup.
  - intros s. unfold listed. rewrite flatten_values_In, Hchild; [tauto|].
    intros x y Hx Hy E. apply Hchild in Hx, Hy.
    destruct Hx as [Hx _], Hy as [Hy _].
    assert (H := find_unique subj_id _ x Hs Hx). rewrite E in H.
    rewrite (find_unique subj_id _ y Hs Hy) in H. congruence.
Qed.

Lemma teacher_detail_lists_subjects_witness :
  let listed :=
    JsMap.values (flatten subj_id tr_subject (taught_classes Sample.db "t1")) in
  json_path ["data"; "subjects"] (body (users_detail Sample.db "t1"))
    = Some (JArr (map subject_json listed)) /\
  NoDup (map subj_id listed) /\
  (forall s, In s listed <->
     In s (subjects Sample.db) /\ subj_id s <> 0 /\
     exists c, In c (classes Sample.db) /\ cls_teacherId c = "t1" /\
               cls_subjectId c = subj_id s).
Proof.
  apply (teacher_detail_lists_subjects Sample.db "t1" Sample.tess).
  - constructor; simpl; solve_NoDup.
  - reflexivity.
  - reflexivity.
Defined.

(** For a student, [classes] holds exactly the stored classes, with an
    id other than 0, that some enrollment of the student names, each
    once however many enrollments name it. *)
Theorem student_detail_lists_classes (db : database) (id : string) (u : user) :
  primary_keys db ->
  find_user db id = Some u ->
  user_role u = Student ->
  let listed := JsMap.values (flatten cls_id er_class (student_enrollments db id)) in
  json_path ["data"; "classes"] (body (users_detail db id))
    = Some (JArr (map class_json listed)) /\
  NoDup (map cls_id listed) /\
  (forall c, In c listed <->
     In c (classes db) /\ cls_id c <> 0 /\
     exists e, In e (enrollments db) /\ enr_studentId e = id /\ enr_classId e = cls_id c).
Proof.
  intros Hpk Hu Hrole listed.
  assert (Hrows := student_enrollments_rows db id Hpk).
  destruct Hpk as [_ _ _ Hc].
  assert (Hchild : forall c, In c (children er_class (student_enrollments db id)) <->
            In c (classes db) /\
            exists e, In e (enrollments db) /\ enr_studentId e = id /\
                      enr_classId e = cls_id c).
  { intros c. rewrite children_In. split.
    - intros (row & Hrow & E). rewrite Hrows, order_by_desc_In, in_map_iff in Hrow.
      destruct Hrow as (e & <- & He). simpl in E.
      apply filter_In in He. destruct He as [He Ht]. apply String.eqb_eq in Ht.
      apply find_some in E. destruct E as [Hin E]. apply Z.eqb_eq in E.
      split; [exact Hin|]. exists e. auto.
    - intros (Hin & e & He & Ht & E).
      eexists. split.
      + rewrite Hrows, order_by_desc_In, in_map_iff. exists e. split; [reflexivity|].
        apply filter_In. split; [exact He|]. now apply String.eqb_eq.
      + simpl. rewrite E. apply (find_unique cls_id _ c Hc Hin). }
  split; [|split].
  - unfold users_detail. rewrite Hu, Hrole.
    change (json_path ["classes"] (student_data db u id)
            = Some (JArr (map class_json listed))).
    apply (student_data_maps db u id).
  - apply flatten_values_NoDup.
  - intros c. unfold listed. rewrite flatten_values_In, Hchild; [tauto|].
    intros x y Hx Hy E. apply Hchild in Hx, Hy.
    destruct Hx as [Hx _], Hy as [Hy _].
    assert (H := find_unique cls_id _ x Hc Hx). rewrite E in H.
    rewrite (find_unique cls_id _ y Hc Hy) in H. congruence.
Qed.

Lemma student_detail_lists_classes_witness :
  let listed :=
    JsMap.values (flatten cls_id er_class (student_enrollments Sample.db "s1")) in
  json_path ["data"; "classes"] (body (users_detail Sample.db "s1"))
    = Some (JArr (map class_json listed)) /\
  NoDup (map cls_id listed) /\
  (forall c, In c listed <->
     In c (classes Sample.db) /\ cls_id c <> 0 /\
     exists e, In e (enrollments Sample.db) /\ enr_studentId e = "s1" /\
               enr_classId e = cls_id c).
Proof.
  apply (student_detail_lists_classes Sample.db "s1" Sample.sam).
  - constructor; simpl; solve_NoDup.
  - reflexivity.
  - reflexivity.
Defined.

(** ** What a search matches *)









(** ** Ids and page numbers as the routes read them *)

Lemma ltrim_keeps_last (l : list ascii) (c : ascii) :
  is_space c = false -> exists l', ltrim (l ++ [c]) = (l' ++ [c])%list.
Proof.
  intros Hc. induction l as [|x l IH]; simpl.
  - rewrite Hc. now exists [].
  - destruct (is_space x); [exact IH|]. now exists (x :: l).
Qed.

Lemma trim_keeps_head (c : ascii) (r : list ascii) :
  is_space c = false -> exists r', trim (c :: r) = c :: r'.
Proof.
  intros Hc. unfold trim. simpl ltrim. rewrite Hc. simpl rev.
  destruct (ltrim_keeps_last (rev r) c Hc) as (l' & ->).
  rewrite rev_app_distr. simpl. now exists (rev l').
Qed.

(** A string that starts with a letter is not read as a finite number. *)
Lemma letter_first_not_finite (c : ascii) (rest : string) :
  is_letter c = true -> isFinite (string_to_number (String c rest)) = false.
Proof.
  intros Hc.
  assert (Hsp : is_space c = false)
    by (destruct c as [[] [] [] [] [] [] [] []]; try discriminate; reflexivity).
  destruct (trim_keeps_head c (list_ascii_of_string rest) Hsp) as (r' & Ht).
  rewrite (string_to_number_unsigned (String c rest) c r' Ht).
  - unfold parse_unsigned.
    destruct (list_ascii_eqb (c :: r') infinity_lit); [reflexivity|].
    assert (Hd : parse_decimal (c :: r') = None)
      by (destruct c as [[] [] [] [] [] [] [] []]; try discriminate; reflexivity).
    now rewrite Hd.
  - intros ->. discriminate.
  - intros ->. discriminate.
  - destruct c as [[] [] [] [] [] [] [] []]; try discriminate; reflexivity.
Qed.

(** A subject or department id that starts with a letter is answered
    400 with the route's error message, whatever the database holds. *)
Theorem letter_id_is_rejected (db : database) (c : ascii) (rest : string) :
  is_letter c = true ->
  subjects_detail db (String c rest) = error_response 400 "Invalid subject id" /\
  departments_detail db (String c rest) = error_response 400 "Invalid department id".
Proof.
  intros Hc. unfold subjects_detail, departments_detail.
  now rewrite (letter_first_not_finite c rest Hc).
Qed.

Lemma letter_id_is_rejected_witness :
  subjects_detail Sample.db (String "x"%char "12")
    = error_response 400 "Invalid subject id" /\
  departments_detail Sample.db (String "x"%char "12")
    = error_response 400 "Invalid department id".
Proof.
  apply (letter_id_is_rejected Sample.db "x"%char "12"). reflexivity.
Defined.

